(** * Content backend: role lifecycle and authorization handlers

    A shallow embedding of the request handlers of the content API
    (controllers/authController.js and the post controller) together with
    the properties of the role lifecycle and of the authorization checks.

    The handlers are asynchronous functions that talk to two collections
    (users, posts) through the object-document mapper.  Each [await]ed call
    is one atomic access to the store; a handler is therefore modelled as a
    tree of store calls ([handler]), interpreted against an explicit store
    ([runWith], [run]).

    Conventions of the model:
    - a document identifier is the string the mapper prints for it, and the
      identifiers sent in requests are well-formed, so that a lookup by
      identifier finds a document or finds none (it does not throw);
    - a field of a request body that a handler tests is absent, [null] or a
      string;
    - the [password] of a user is what the model stores for it; hashing and
      comparing passwords, and signing and verifying tokens, belong to
      libraries and are not modelled (verification of a token is a parameter
      of the token middleware);
    - a response is its status and the part of its body that the handlers
      build; the [error] detail added to a 500 answer is left out. *)

From Stdlib Require Import Ascii.
From stdpp Require Import gmap strings list fin_maps.

Local Open Scope string_scope.
Local Open Scope nat_scope.

(** ** Values read from a JSON request body

    A field of [req.body] is absent ([undefined]), [null], or a string. *)

Inductive jsval : Type :=
| JUndefined
| JNull
| JStr (s : string).

#[global] Instance jsval_eq_dec : EqDecision jsval.
Proof. solve_decision. Defined.

(** JavaScript truthiness on these values: only a non-empty string is truthy. *)
Definition truthy (v : jsval) : bool :=
  match v with
  | JStr s => negb (String.eqb s "")
  | _ => false
  end.

(** [v || d] where the result is stored in a string field. *)
Definition js_or (v : jsval) (d : string) : string :=
  match v with
  | JStr s => if truthy v then s else d
  | _ => d
  end.

(** [v === 'lit'] *)
Definition js_is (v : jsval) (lit : string) : bool :=
  match v with
  | JStr s => String.eqb s lit
  | _ => false
  end.

(** [arr.includes(v)] for an array of strings. *)
Definition includes (arr : list string) (v : jsval) : bool :=
  existsb (js_is v) arr.

(** ** Documents *)

Record User : Type := mkUser {
  name : string;
  email : string;
  password : string;
  role : string
}.

(** A user document as returned by the mapper: the stored fields and the
    identifier under which the collection holds them. *)
Record UserDoc : Type := mkUserDoc {
  _id : string;
  userFields :> User
}.

Record Comment : Type := mkComment {
  comment_id : string;
  user : string;
  comment : string
}.

Record Post : Type := mkPost {
  title : string;
  content : string;
  author : string;
  comments : list Comment
}.

Record PostDoc : Type := mkPostDoc {
  post_id : string;
  postFields :> Post
}.

#[global] Instance User_eq_dec : EqDecision User.
Proof. solve_decision. Defined.
#[global] Instance UserDoc_eq_dec : EqDecision UserDoc.
Proof. solve_decision. Defined.
#[global] Instance Comment_eq_dec : EqDecision Comment.
Proof. solve_decision. Defined.
#[global] Instance Post_eq_dec : EqDecision Post.
Proof. solve_decision. Defined.
#[global] Instance PostDoc_eq_dec : EqDecision PostDoc.
Proof. solve_decision. Defined.

(** [req.user], as set by the token middleware: [{ id, role }] taken from
    the decoded token. *)
Record ReqUser : Type := mkReqUser {
  user_id : string;
  user_role : string
}.

(** ** The store: two collections keyed by document identifier *)

Record Store : Type := mkStore {
  users : gmap string User;
  posts : gmap string Post
}.

(** [User.countDocuments({ role })] / [User.countDocuments()] *)
Definition countUsers (filterRole : option string) (us : gmap string User) : nat :=
  match filterRole with
  | Some r => size (filter (λ kv : string * User, role kv.2 = r) us)
  | None => size us
  end.

Definition countAdmins (s : Store) : nat := countUsers (Some "admin") (users s).

(** ** Responses *)

Inductive payload : Type :=
| Msg (message : string)
| MsgUser (message : string) (u_id u_name u_email u_role : string)
| UserInfo (u_id u_name u_email u_role : string)
| PostJson (p : PostDoc)
| DeniedPost (message postAuthor requestUser userRole : string).

Record response : Type := mkResponse {
  status : nat;
  json : payload
}.

#[global] Instance payload_eq_dec : EqDecision payload.
Proof. solve_decision. Defined.
#[global] Instance response_eq_dec : EqDecision response.
Proof. solve_decision. Defined.

(** ** Store calls and handlers *)

Inductive op : Type → Type :=
| User_findOne (byEmail : string) : op (option UserDoc)
| User_findById (id : string) : op (option UserDoc)
| User_countDocuments (filterRole : option string) : op nat
| User_create (u : User) : op (option UserDoc)
| User_save (d : UserDoc) : op bool
| User_findByIdAndDelete (id : string) : op (option UserDoc)
| Post_findById (id : string) : op (option PostDoc)
| Post_save (d : PostDoc) : op bool
| Post_findByIdAndDelete (id : string) : op (option PostDoc).

Inductive handler (R : Type) : Type :=
| Ret (r : R)
| Call {A : Type} (o : op A) (k : A → handler R).

Arguments Ret {R} r.
Arguments Call {R A} o k.

(** [let* x := await o in k]: the handler awaits the store call [o] and goes
    on as [k] with its result. *)
Notation "'let*' x ':=' 'await' o 'in' k" :=
  (Call o (λ x, k)) (at level 10, x name, o at level 10, k at level 200).

(** Sequencing of a sub-computation that itself awaits store calls. *)
Fixpoint handler_bind {A B : Type} (h : handler A) (f : A → handler B) : handler B :=
  match h with
  | Ret a => f a
  | Call o k => Call o (λ x, handler_bind (k x) f)
  end.

Notation "'let*' x ':=' 'do' h 'in' k" :=
  (handler_bind h (λ x, k)) (at level 10, x name, h at level 200, k at level 200).

(** The effect of one store call.  [save] writes the modified paths of the
    loaded document back under its identifier and fails (the mapper throws)
    when the document is no longer in the collection.  The one handler that
    saves a user modifies its [role]; the handlers that save a post are only
    run with no other request in between, where writing the loaded document
    back as a whole is the same.  [create] stores the new document under an
    identifier not yet in use.  A lookup by identifier is given a
    well-formed identifier: the cast error the mapper throws on a malformed
    one, which the handlers' [catch] answers with 500, is outside the
    model. *)
Definition perform {A : Type} (o : op A) (s : Store) : A * Store :=
  match o in op T return T * Store with
  | User_findOne e =>
      ((λ kv : string * User, mkUserDoc kv.1 kv.2) <$>
         head (map_to_list (filter (λ kv : string * User, email kv.2 = e) (users s))), s)
  | User_findById id => (mkUserDoc id <$> users s !! id, s)
  | User_countDocuments f => (countUsers f (users s), s)
  | User_create u =>
      let id := fresh (dom (users s)) in
      (Some (mkUserDoc id u), mkStore (<[id := u]> (users s)) (posts s))
  | User_save d =>
      match users s !! _id d with
      | Some u =>
          (true, mkStore (<[_id d := mkUser (name u) (email u) (password u) (role d)]> (users s))
                         (posts s))
      | None => (false, s)
      end
  | User_findByIdAndDelete id =>
      (mkUserDoc id <$> users s !! id, mkStore (delete id (users s)) (posts s))
  | Post_findById id => (mkPostDoc id <$> posts s !! id, s)
  | Post_save d =>
      match posts s !! post_id d with
      | Some _ => (true, mkStore (users s) (<[post_id d := postFields d]> (posts s)))
      | None => (false, s)
      end
  | Post_findByIdAndDelete id =>
      (mkPostDoc id <$> posts s !! id, mkStore (users s) (delete id (posts s)))
  end.

(** Running a handler.  Requests are not isolated from one another: between
    two awaited calls other requests may change the store.  [env] lists what
    happens to the store before the first, second, ... call of the handler;
    once it is exhausted the handler runs undisturbed. *)
Fixpoint runWith {R : Type} (env : list (Store → Store)) (h : handler R) (s : Store)
  : R * Store :=
  match h with
  | Ret r => (r, s)
  | Call o k =>
      let s' := match env with e :: _ => e s | [] => s end in
      let '(a, s'') := perform o s' in
      runWith (tail env) (k a) s''
  end.

(** A request handled with no interleaved request. *)
Definition run {R : Type} (h : handler R) (s : Store) : R * Store := runWith [] h s.

(** ** The handlers of controllers/authController.js *)

(** [res.status(st).json(p)] as the handler's result. *)
Definition res (st : nat) (p : payload) : handler response := Ret (mkResponse st p).

Definition registerUser (req_name req_email req_password : string) : handler response :=
  (* Check if user with this email already exists *)
  let* userExists := await (User_findOne req_email) in
  if userExists is Some _ then res 400 (Msg "User already exists") else
  (* Count existing users to determine if this is the first user *)
  let* userCount := await (User_countDocuments None) in
  let role' := if Nat.eqb userCount 0 then "admin" else "reader" in
  (* Create new user with the determined role *)
  let* user := await (User_create (mkUser req_name req_email req_password role')) in
  match user with
  | Some user => res 201 (UserInfo (_id user) (name user) (email user) (role user))
  | None => res 400 (Msg "Invalid user data")
  end.

Definition validRoles : list string := ["admin"; "author"; "reader"].

(** The string carried by a body field that passed [validRoles.includes]. *)
Definition js_str (v : jsval) : string :=
  match v with
  | JStr s => s
  | _ => ""
  end.

Definition PrivilegeRevoked : response :=
  mkResponse 403 (Msg "You no longer have admin privileges").
Definition SelfModificationForbidden : response :=
  mkResponse 403 (Msg "Cannot modify your own role for security reasons").
Definition InvalidRole : response :=
  mkResponse 400 (Msg "Invalid role").
Definition LastAdminProtection : response :=
  mkResponse 403 (Msg "Cannot change role: System requires at least one admin").
Definition AdminCeilingReached : response :=
  mkResponse 403 (Msg "Maximum number of admins (5) already reached").
Definition UserNotFound : response :=
  mkResponse 404 (Msg "User not found").

(** The success response of the role update for the saved document. *)
Definition roleUpdated (d : UserDoc) : response :=
  mkResponse 200
    (MsgUser "User role updated successfully" (_id d) (name d) (email d) (role d)).

Definition withRole (d : UserDoc) (r : string) : UserDoc :=
  mkUserDoc (_id d) (mkUser (name d) (email d) (password d) r).

(** A guard either answers the request ([Some r], the handler returns) or
    lets it through ([None]). *)
Definition updateUserRole (req_user : ReqUser) (id : string) (newRole : jsval)
  : handler response :=
  (* 1. Find user being updated first *)
  let* userToUpdate := await (User_findById id) in
  match userToUpdate with
  | None => Ret UserNotFound
  | Some userToUpdate =>
  (* 2. Double-check current user is still admin *)
  let* currentUser := await (User_findById (user_id req_user)) in
  if negb (if currentUser is Some c then String.eqb (role c) "admin" else false)
  then Ret PrivilegeRevoked else
  (* 3. Prevent admin from changing their own role *)
  let currentUserId := user_id req_user in
  let targetUserId := _id userToUpdate in
  if String.eqb currentUserId targetUserId then Ret SelfModificationForbidden else
  (* 4. Validate role *)
  if negb (includes validRoles newRole) then Ret InvalidRole else
  (* 5. If changing an admin to non-admin, check if they're the last admin *)
  let* guard5 := do
    (if String.eqb (role userToUpdate) "admin" && negb (js_is newRole "admin")
     then let* adminCount := await (User_countDocuments (Some "admin")) in
          Ret (if Nat.leb adminCount 1 then Some LastAdminProtection else None)
     else Ret None) in
  if guard5 is Some r then Ret r else
  (* 6. If setting a user to admin, check the total number of admins *)
  let* guard6 := do
    (if js_is newRole "admin" && negb (String.eqb (role userToUpdate) "admin")
     then let* adminCount := await (User_countDocuments (Some "admin")) in
          Ret (if Nat.leb 5 adminCount then Some AdminCeilingReached else None)
     else Ret None) in
  if guard6 is Some r then Ret r else
  (* 7. Update role if all checks pass *)
  let userToUpdate := withRole userToUpdate (js_str newRole) in
  let* saved := await (User_save userToUpdate) in
  if (saved : bool) then Ret (roleUpdated userToUpdate)
  else res 500 (Msg "Error updating user role")
  end.

Definition deleteUser (id : string) : handler response :=
  let* user := await (User_findByIdAndDelete id) in
  match user with
  | None => Ret UserNotFound
  | Some _ => res 200 (Msg "User deleted successfully")
  end.

(** ** The handlers of the post controller *)

Definition withContent (d : PostDoc) (t c : string) : PostDoc :=
  mkPostDoc (post_id d) (mkPost t c (author d) (comments d)).

Definition withComments (d : PostDoc) (cs : list Comment) : PostDoc :=
  mkPostDoc (post_id d) (mkPost (title d) (content d) (author d) cs).

Definition updatePost (req_user : ReqUser) (id : string) (req_title req_content : jsval)
  : handler response :=
  let* post := await (Post_findById id) in
  match post with
  | None => res 404 (Msg "Post not found")
  | Some post =>
  (* Allow only the author or admin to update *)
  if negb (String.eqb (author post) (user_id req_user))
     && negb (String.eqb (user_role req_user) "admin")
  then res 403 (Msg "Access denied") else
  let post := withContent post (js_or req_title (title post))
                               (js_or req_content (content post)) in
  let* saved := await (Post_save post) in
  if (saved : bool) then res 200 (PostJson post)
  else res 500 (Msg "Error updating post")
  end.

Definition deletePost (req_user : ReqUser) (id : string) : handler response :=
  (* First find the post to check authorization *)
  let* post := await (Post_findById id) in
  match post with
  | None => res 404 (Msg "Post not found")
  | Some post =>
  let postAuthorId := author post in
  let requestUserId := user_id req_user in
  (* Check if user is author or admin *)
  if negb (String.eqb postAuthorId requestUserId)
     && negb (String.eqb (user_role req_user) "admin")
  then res 403 (DeniedPost "Access denied: You are not authorized to delete this post"
                           postAuthorId requestUserId (user_role req_user)) else
  let* deletedPost := await (Post_findByIdAndDelete id) in
  match deletedPost with
  | None => res 404 (Msg "Post could not be deleted")
  | Some _ => res 200 (Msg "Post deleted successfully")
  end
  end.

(** [post.comments.push({ user, comment })]: the new subdocument goes to the
    end of the array, under an identifier no comment of the post has. *)
Definition push (cs : list Comment) (u c : string) : list Comment :=
  cs ++ [mkComment (fresh (comment_id <$> cs)) u c].

Definition addComment (req_user : ReqUser) (id : string) (req_comment : string)
  : handler response :=
  let* post := await (Post_findById id) in
  match post with
  | None => res 404 (Msg "Post not found")
  | Some post =>
  let post := withComments post (push (comments post) (user_id req_user) req_comment) in
  let* saved := await (Post_save post) in
  if (saved : bool) then res 201 (PostJson post)
  else res 500 (Msg "Error adding comment")
  end.

(** [post.comments.id(commentId)] *)
Definition comments_id (cs : list Comment) (commentId : string) : option Comment :=
  List.find (λ c, String.eqb (comment_id c) commentId) cs.

(** [comment.deleteOne()]: the subdocument is pulled out of its parent array. *)
Definition deleteOne (cs : list Comment) (c : Comment) : list Comment :=
  List.filter (λ c', negb (String.eqb (comment_id c') (comment_id c))) cs.

Definition deleteComment (req_user : ReqUser) (postId commentId : string)
  : handler response :=
  (* Find the post *)
  let* post := await (Post_findById postId) in
  match post with
  | None => res 404 (Msg "Post not found")
  | Some post =>
  (* Find the comment *)
  match comments_id (comments post) commentId with
  | None => res 404 (Msg "Comment not found")
  | Some comment =>
  let isAdmin := String.eqb (user_role req_user) "admin" in
  let isPostAuthor := String.eqb (author post) (user_id req_user) in
  let isCommentOwner := String.eqb (user comment) (user_id req_user) in
  if negb isAdmin && negb isPostAuthor && negb isCommentOwner
  then res 403 (Msg "Access denied: You are not authorized to delete this comment") else
  (* Remove the comment *)
  let post := withComments post (deleteOne (comments post) comment) in
  let* saved := await (Post_save post) in
  if (saved : bool) then res 200 (Msg "Comment deleted successfully")
  else res 500 (Msg "An error occurred while deleting the comment")
  end
  end.

(** ** The profile handler of controllers/authController.js *)

Definition getUserProfile (req_user : ReqUser) : handler response :=
  let* user := await (User_findById (user_id req_user)) in
  match user with
  | Some user => res 200 (UserInfo (_id user) (name user) (email user) (role user))
  | None => Ret UserNotFound
  end.

(** ** The token middleware *)

(** [s.split(sep)] for a one-character separator. *)
Fixpoint split (sep : ascii) (s : string) : list string :=
  match s with
  | EmptyString => [EmptyString]
  | String c s' =>
      if Ascii.eqb c sep then EmptyString :: split sep s'
      else match split sep s' with
           | w :: ws => String c w :: ws
           | [] => [String c EmptyString]
           end
  end.

(** [req.headers.authorization?.split(' ')[1]] *)
Definition headerToken (authorization : option string) : option string :=
  h ← authorization; split " "%char h !! 1.

(** What a middleware does with a request: it answers it, or hands it on
    with [req.user] set. *)
Inductive middleware : Type :=
| Respond (r : response)
| Next (req_user : ReqUser).

Section verifyToken.

(** [jwt.verify(token, process.env.JWT_SECRET)]: the decoded payload, or
    [None] when it throws. *)
Variable jwt_verify : string → option ReqUser.

Definition verifyToken (authorization : option string) : middleware :=
  match headerToken authorization with
  | None | Some "" => Respond (mkResponse 401 (Msg "Unauthorized"))
  | Some token =>
      match jwt_verify token with
      | Some decoded => Next (mkReqUser (user_id decoded) (user_role decoded))
      | None => Respond (mkResponse 401 (Msg "Invalid token"))
      end
  end.

End verifyToken.

(** ** Well-formedness of a store *)

(** Every stored role is one of the three roles. *)
Definition rolesValid (s : Store) : Prop :=
  map_Forall (λ _ u, role u ∈ validRoles) (users s).

(** No two users share an email. *)
Definition emailsUnique (s : Store) : Prop :=
  ∀ i j u v, users s !! i = Some u → users s !! j = Some v → email u = email v → i = j.

(** No two comments of a post share an identifier. *)
Definition commentIdsUnique (p : Post) : Prop :=
  NoDup (comment_id <$> comments p).

(** * Properties *)

(** ** Counting users by role *)

Lemma countUsers_lookup (r : string) (us : gmap string User) (id : string) (u : User) :
  us !! id = Some u → role u = r → 1 ≤ countUsers (Some r) us.
Proof.
  intros Hu Hr. unfold countUsers.
  assert (Hf : filter (λ kv : string * User, role kv.2 = r) us !! id = Some u)
    by (apply map_lookup_filter_Some; done).
  destruct (size _) eqn:Hsz; [|lia].
  apply map_size_empty_inv in Hsz. rewrite Hsz, lookup_empty in Hf. done.
Qed.

Lemma countUsers_two (r : string) (us : gmap string User) (i j : string) (u v : User) :
  i ≠ j → us !! i = Some u → role u = r → us !! j = Some v → role v = r →
  2 ≤ countUsers (Some r) us.
Proof.
  intros Hij Hu Hur Hv Hvr.
  assert (H1 : 1 ≤ countUsers (Some r) (delete i us)).
  { apply (countUsers_lookup r _ j v); [|done]. by rewrite lookup_delete_ne. }
  unfold countUsers in *. rewrite map_filter_delete in H1.
  rewrite map_size_delete_Some in H1; [lia|].
  exists u. by apply map_lookup_filter_Some.
Qed.

Lemma countUsers_delete (r : string) (us : gmap string User) (id : string) :
  countUsers (Some r) (delete id us)
  = match us !! id with
    | Some u => if decide (role u = r) then pred (countUsers (Some r) us)
                else countUsers (Some r) us
    | None => countUsers (Some r) us
    end.
Proof.
  unfold countUsers. rewrite map_filter_delete.
  destruct (us !! id) as [u|] eqn:Hu.
  - case_decide.
    + apply map_size_delete_Some. exists u. by apply map_lookup_filter_Some.
    + apply map_size_delete_None, map_lookup_filter_None. right.
      intros x Hx. simpl. congruence.
  - apply map_size_delete_None, map_lookup_filter_None. by left.
Qed.

Lemma countUsers_insert (r : string) (us : gmap string User) (id : string) (u : User) :
  countUsers (Some r) (<[id := u]> us)
  = (if decide (role u = r) then 1 else 0) + countUsers (Some r) (delete id us).
Proof.
  unfold countUsers. rewrite map_filter_insert. simpl. case_decide; [|done].
  rewrite <- insert_delete_eq, map_size_insert_None.
  - by rewrite map_filter_delete.
  - apply lookup_delete_eq.
Qed.

(** ** Role update *)

(** C3. For every role update whose target exists and whose actor is a
    persisted admin, if the actor's id is the target's id the request is
    answered 403 "Cannot modify your own role for security reasons" and the
    store, in particular the target's role, is as before; this for every
    requested role, valid or not, and whatever the number of admins. *)
Theorem updateUserRole_self_forbidden
  (req_user : ReqUser) (id : string) (newRole : jsval) (s : Store) (t c : User) :
  users s !! id = Some t →
  users s !! user_id req_user = Some c →
  role c = "admin" →
  user_id req_user = id →
  run (updateUserRole req_user id newRole) s = (SelfModificationForbidden, s)
  ∧ users s !! id = Some t.
Proof.
  intros Ht Hc Hr Hid. split; [|done].
  unfold run, updateUserRole. cbn. rewrite Ht. cbn. rewrite Hc. cbn.
  rewrite Hr. cbn. rewrite Hid, String.eqb_refl. reflexivity.
Qed.

Lemma updateUserRole_self_forbidden_witness :
  let s := mkStore {[ "A" := mkUser "a" "a@x" "pw" "admin" ]} ∅ in
  run (updateUserRole (mkReqUser "A" "admin") "A" (JStr "reader")) s
  = (SelfModificationForbidden, s)
  ∧ users s !! "A" = Some (mkUser "a" "a@x" "pw" "admin").
Proof.
  intros s.
  apply (updateUserRole_self_forbidden (mkReqUser "A" "admin") "A" (JStr "reader") s
           (mkUser "a" "a@x" "pw" "admin") (mkUser "a" "a@x" "pw" "admin"));
    reflexivity.
Defined.

(** C2, as the code has it.  The target is looked up before the actor is
    re-verified: when the actor is not a persisted admin (its document is
    gone, or its stored role is not admin) the request is answered 403 "You
    no longer have admin privileges" if the target exists and 404 "User not
    found" if it does not; the store is untouched in both cases, whatever
    the requested role. *)
Theorem updateUserRole_privilege_revoked
  (req_user : ReqUser) (id : string) (newRole : jsval) (s : Store) :
  (∀ c, users s !! user_id req_user = Some c → role c ≠ "admin") →
  run (updateUserRole req_user id newRole) s
  = (if users s !! id is Some _ then PrivilegeRevoked else UserNotFound, s).
Proof.
  intros Hc. unfold run, updateUserRole. cbn.
  destruct (users s !! id) as [t|] eqn:Ht; cbn; [|done].
  destruct (users s !! user_id req_user) as [c|] eqn:Hcu; cbn; [|done].
  specialize (Hc c eq_refl). apply String.eqb_neq in Hc. rewrite Hc. done.
Qed.

Lemma updateUserRole_privilege_revoked_witness :
  let s := mkStore {[ "R" := mkUser "r" "r@x" "pw" "reader";
                      "T" := mkUser "t" "t@x" "pw" "author" ]} ∅ in
  run (updateUserRole (mkReqUser "R" "admin") "T" (JStr "admin")) s
  = (PrivilegeRevoked, s).
Proof.
  intros s.
  apply (updateUserRole_privilege_revoked (mkReqUser "R" "admin") "T" (JStr "admin") s).
  intros c Hc. vm_compute in Hc. injection Hc as <-. discriminate.
Defined.

(** C2, as the spec words it, fails: a reader whose token still says admin
    asks for the role of a user that does not exist, and is answered 404
    "User not found", not 403 "You no longer have admin privileges". *)
Lemma updateUserRole_missing_target_counterexample :
  let s := mkStore {[ "R" := mkUser "r" "r@x" "pw" "reader" ]} ∅ in
  role <$> users s !! "R" = Some "reader"
  ∧ users s !! "Z" = None
  ∧ run (updateUserRole (mkReqUser "R" "admin") "Z" (JStr "author")) s = (UserNotFound, s)
  ∧ UserNotFound ≠ PrivilegeRevoked.
Proof. repeat split; try reflexivity. discriminate. Qed.

(** C4.  The role update runs among other requests: [e1], [e2], [e3] are
    what they do to the store before the handler's first, second and third
    awaited call.  When the earlier guards pass (the target is found, the
    actor is found with role admin, actor and target differ, the requested
    role is valid), the target's role is admin and the requested role is not,
    the handler counts the admins.  If the count is at most 1 the request is
    answered 403 "Cannot change role: System requires at least one admin"
    and the handler has written nothing: the store is as the count saw it.
    If the count is at least 2 the guard passes and the handler goes on to
    save the target with the requested role. *)
Theorem updateUserRole_last_admin
  (req_user : ReqUser) (id : string) (newRole : jsval)
  (e1 e2 e3 : Store → Store) (rest : list (Store → Store)) (s : Store) (t c : User) :
  let s1 := e1 s in
  let s2 := e2 s1 in
  let s3 := e3 s2 in
  let s4 := hd (λ s, s) rest s3 in
  users s1 !! id = Some t →
  users s2 !! user_id req_user = Some c →
  role c = "admin" →
  user_id req_user ≠ id →
  includes validRoles newRole = true →
  role t = "admin" →
  js_is newRole "admin" = false →
  (countAdmins s3 ≤ 1 →
     runWith (e1 :: e2 :: e3 :: rest) (updateUserRole req_user id newRole) s
     = (LastAdminProtection, s3))
  ∧ (2 ≤ countAdmins s3 →
     runWith (e1 :: e2 :: e3 :: rest) (updateUserRole req_user id newRole) s
     = match users s4 !! id with
       | Some u =>
           (roleUpdated (withRole (mkUserDoc id t) (js_str newRole)),
            mkStore (<[id := mkUser (name u) (email u) (password u) (js_str newRole)]> (users s4))
                    (posts s4))
       | None => (mkResponse 500 (Msg "Error updating user role"), s4)
       end).
Proof.
  intros s1 s2 s3 s4 Ht Hc Hcr Hne Hvalid Htr Hnew.
  apply String.eqb_neq in Hne.
  unfold countAdmins, countUsers.
  split; intros Hcount.
  - unfold updateUserRole. rewrite Hvalid. cbn. fold s1. rewrite Ht. cbn.
    fold s2. rewrite Hc. cbn. rewrite Hcr, Hne, Htr, Hnew. cbn. fold s3.
    apply Nat.leb_le in Hcount. rewrite Hcount. reflexivity.
  - unfold updateUserRole. rewrite Hvalid. cbn. fold s1. rewrite Ht. cbn.
    fold s2. rewrite Hc. cbn. rewrite Hcr, Hne, Htr, Hnew. cbn. fold s3.
    apply Nat.leb_gt in Hcount. rewrite Hcount. cbn.
    replace (match rest with [] => s3 | e :: _ => e s3 end) with s4
      by (unfold s4; destruct rest; reflexivity).
    destruct (users s4 !! id); reflexivity.
Qed.

Lemma updateUserRole_last_admin_witness :
  let s := mkStore {[ "A" := mkUser "a" "a@x" "pw" "admin";
                      "B" := mkUser "b" "b@x" "pw" "admin" ]} ∅ in
  let gone := λ s, mkStore (delete "A" (users s)) (posts s) in
  let id := λ s : Store, s in
  countAdmins (gone s) ≤ 1
  ∧ runWith [id; id; gone] (updateUserRole (mkReqUser "A" "admin") "B" (JStr "reader")) s
    = (LastAdminProtection, gone s).
Proof.
  intros s gone id. split; [vm_compute; lia|].
  apply (updateUserRole_last_admin (mkReqUser "A" "admin") "B" (JStr "reader")
           id id gone [] s (mkUser "b" "b@x" "pw" "admin") (mkUser "a" "a@x" "pw" "admin"));
    first [reflexivity | discriminate | vm_compute; lia].
Defined.

(** C5.  In a role update that passes the earlier guards and asks for role
    admin: if the target is not an admin and there are 5 admins or more, the
    request is answered 403 "Maximum number of admins (5) already reached"
    and the store is as before; if the target is not an admin and there are
    at most 4 admins, the request succeeds and the target is stored with
    role admin; if the target is an admin already, the request succeeds
    whatever the number of admins. *)
Theorem updateUserRole_admin_ceiling
  (req_user : ReqUser) (id : string) (s : Store) (t c : User) :
  let promoted := mkUser (name t) (email t) (password t) "admin" in
  let promotion :=
    (roleUpdated (mkUserDoc id promoted),
     mkStore (<[id := promoted]> (users s)) (posts s)) in
  users s !! id = Some t →
  users s !! user_id req_user = Some c →
  role c = "admin" →
  user_id req_user ≠ id →
  (role t ≠ "admin" → 5 ≤ countAdmins s →
     run (updateUserRole req_user id (JStr "admin")) s = (AdminCeilingReached, s))
  ∧ (role t ≠ "admin" → countAdmins s ≤ 4 →
     run (updateUserRole req_user id (JStr "admin")) s = promotion)
  ∧ (role t = "admin" →
     run (updateUserRole req_user id (JStr "admin")) s = promotion).
Proof.
  intros promoted promotion Ht Hc Hcr Hne.
  apply String.eqb_neq in Hne.
  unfold countAdmins, countUsers, promotion, promoted, run, updateUserRole.
  repeat split.
  - intros Htr Hcount. apply String.eqb_neq in Htr. apply Nat.leb_le in Hcount.
    cbn -[Nat.leb]. rewrite Ht. cbn -[Nat.leb]. rewrite Hc. cbn -[Nat.leb]. rewrite Hcr, Hne, Htr. cbn -[Nat.leb].
    rewrite Hcount. reflexivity.
  - intros Htr Hcount. apply String.eqb_neq in Htr.
    assert (Hlt : Nat.leb 5 (size (filter (λ kv : string * User, role kv.2 = "admin")
                                          (users s))) = false)
      by (apply Nat.leb_gt; lia).
    cbn -[Nat.leb]. rewrite Ht. cbn -[Nat.leb]. rewrite Hc. cbn -[Nat.leb]. rewrite Hcr, Hne, Htr. cbn -[Nat.leb].
    rewrite Hlt. cbn -[Nat.leb]. rewrite Ht. reflexivity.
  - intros Htr.
    cbn -[Nat.leb]. rewrite Ht. cbn -[Nat.leb]. rewrite Hc. cbn -[Nat.leb]. rewrite Hcr, Hne, Htr. cbn -[Nat.leb].
    rewrite Ht. reflexivity.
Qed.

Lemma updateUserRole_admin_ceiling_witness :
  let s := mkStore {[ "A" := mkUser "a" "a@x" "pw" "admin";
                      "B" := mkUser "b" "b@x" "pw" "reader" ]} ∅ in
  countAdmins s ≤ 4
  ∧ run (updateUserRole (mkReqUser "A" "admin") "B" (JStr "admin")) s
    = (roleUpdated (mkUserDoc "B" (mkUser "b" "b@x" "pw" "admin")),
       mkStore (<["B" := mkUser "b" "b@x" "pw" "admin"]> (users s)) (posts s)).
Proof.
  intros s. split; [vm_compute; lia|].
  refine (proj1 (proj2 (updateUserRole_admin_ceiling (mkReqUser "A" "admin") "B" s
                          (mkUser "b" "b@x" "pw" "reader") (mkUser "a" "a@x" "pw" "admin")
                          _ _ _ _)) _ _);
    first [reflexivity | discriminate | vm_compute; lia].
Defined.

(** ** User deletion *)

(** C1 fails in the code.  The role update refuses to leave the system
    without an admin, but user deletion has no such guard: deleting the one
    user whose role is admin is answered 200 "User deleted successfully" and
    leaves a store with no admin. *)
Theorem deleteUser_removes_last_admin (id : string) (s : Store) (u : User) :
  users s !! id = Some u →
  role u = "admin" →
  countAdmins s = 1 →
  ∃ s', run (deleteUser id) s = (mkResponse 200 (Msg "User deleted successfully"), s')
        ∧ countAdmins s' = 0.
Proof.
  intros Hu Hr Hcount. exists (mkStore (delete id (users s)) (posts s)). split.
  - unfold run, deleteUser. cbn. rewrite Hu. reflexivity.
  - unfold countAdmins in *. cbn [users]. rewrite countUsers_delete, Hu.
    rewrite decide_True by done. by rewrite Hcount.
Qed.

Lemma deleteUser_removes_last_admin_witness :
  let s := mkStore {[ "A" := mkUser "a" "a@x" "pw" "admin";
                      "B" := mkUser "b" "b@x" "pw" "reader" ]} ∅ in
  1 ≤ countAdmins s
  ∧ ∃ s', run (deleteUser "A") s = (mkResponse 200 (Msg "User deleted successfully"), s')
          ∧ countAdmins s' = 0.
Proof.
  intros s. split; [vm_compute; lia|].
  apply (deleteUser_removes_last_admin "A" s (mkUser "a" "a@x" "pw" "admin"));
    reflexivity.
Defined.

(** ** Registration *)

Lemma findOne_None (e : string) (us : gmap string User) :
  (∀ id u, us !! id = Some u → email u ≠ e) →
  head (map_to_list (filter (λ kv : string * User, email kv.2 = e) us)) = None.
Proof.
  intros H.
  replace (filter (λ kv : string * User, email kv.2 = e) us) with (∅ : gmap string User).
  { by rewrite map_to_list_empty. }
  symmetry. apply map_empty. intros i. apply map_lookup_filter_None.
  destruct (us !! i) as [u|] eqn:Hi; [right|by left].
  intros x [= <-]. simpl. by apply (H i).
Qed.

Lemma findOne_Some (e : string) (us : gmap string User) (id : string) (u : User) :
  us !! id = Some u → email u = e →
  is_Some (head (map_to_list (filter (λ kv : string * User, email kv.2 = e) us))).
Proof.
  intros Hu He.
  destruct (map_to_list (filter (λ kv : string * User, email kv.2 = e) us)) eqn:Hl.
  - apply map_to_list_empty_iff in Hl.
    assert (Hf : filter (λ kv : string * User, email kv.2 = e) us !! id = Some u)
      by (by apply map_lookup_filter_Some).
    rewrite Hl, lookup_empty in Hf. done.
  - by eexists.
Qed.

Lemma fresh_user_id (us : gmap string User) : us !! fresh (dom us) = None.
Proof. apply not_elem_of_dom, is_fresh. Qed.

(** C6, as the code has it.  A registration under an email no user has
    succeeds with 201; the created user has role admin if the collection
    holds no user when the handler counts them, and role reader otherwise.
    So a registration into an empty collection makes an admin, be it the
    first ever or the first after every user was deleted, and a registration
    into a collection that holds a user makes a reader.  The new document is
    stored under an identifier that was not in use. *)
Theorem registerUser_role (req_name req_email req_password : string) (s : Store) :
  let role' := if decide (size (users s) = 0) then "admin" else "reader" in
  let id := fresh (dom (users s)) in
  (∀ i u, users s !! i = Some u → email u ≠ req_email) →
  run (registerUser req_name req_email req_password) s
  = (mkResponse 201 (UserInfo id req_name req_email role'),
     mkStore (<[id := mkUser req_name req_email req_password role']> (users s)) (posts s))
  ∧ users s !! id = None
  ∧ (users s = ∅ → role' = "admin")
  ∧ (users s ≠ ∅ → role' = "reader").
Proof.
  intros role' id Hfree. split; [|split; [apply fresh_user_id|split]].
  - unfold run, registerUser. cbn. rewrite (findOne_None _ _ Hfree). cbn.
    unfold role', id. destruct (size (users s)); reflexivity.
  - intros Hempty. unfold role'. rewrite Hempty, map_size_empty. reflexivity.
  - intros Hne. unfold role'. apply map_size_non_empty_iff in Hne.
    by rewrite decide_False.
Qed.

Lemma registerUser_role_witness :
  let s := mkStore {[ "A" := mkUser "a" "a@x" "pw" "admin" ]} ∅ in
  run (registerUser "b" "b@x" "pw") s
  = (mkResponse 201 (UserInfo (fresh (dom (users s))) "b" "b@x" "reader"),
     mkStore (<[fresh (dom (users s)) := mkUser "b" "b@x" "pw" "reader"]> (users s)) (posts s))
  ∧ users s !! fresh (dom (users s)) = None.
Proof.
  intros s.
  assert (Hfree : ∀ i u, users s !! i = Some u → email u ≠ "b@x").
  { intros i u Hu. unfold s in Hu. cbn [users] in Hu.
    apply lookup_singleton_Some in Hu as [_ <-]. discriminate. }
  destruct (registerUser_role "b" "b@x" "pw" s Hfree) as (Hrun & Hid & _).
  split; [exact Hrun|exact Hid].
Defined.

(** C6, as the spec words it, fails: not every user after the first is a
    reader.  The first user registers and is made admin, is then deleted
    (user deletion has no guard), and the next user to register finds the
    collection empty and is made admin too. *)
Lemma registerUser_after_deletion_counterexample :
  let s0 := mkStore ∅ ∅ in
  let id1 := fresh (dom (users s0)) in
  let s1 := (run (registerUser "a" "a@x" "pw") s0).2 in
  let s2 := (run (deleteUser id1) s1).2 in
  (run (registerUser "a" "a@x" "pw") s0).1 = mkResponse 201 (UserInfo id1 "a" "a@x" "admin")
  ∧ (run (deleteUser id1) s1).1 = mkResponse 200 (Msg "User deleted successfully")
  ∧ (∃ id2, (run (registerUser "b" "b@x" "pw") s2).1
            = mkResponse 201 (UserInfo id2 "b" "b@x" "admin"))
  ∧ "admin" ≠ "reader".
Proof.
  split; [reflexivity|]. split; [reflexivity|]. split; [|discriminate].
  eexists. vm_compute. reflexivity.
Qed.

(** ** Posts and comments *)

(** C7.  For a comment-delete request on an existing post that holds the
    comment: if the actor's role is admin, or the actor is the post's author,
    or the actor is the comment's author, the request is answered 200 and
    the comment is taken out of the post; for every other actor it is
    answered 403 and the store, so the post's comment list, is as before. *)
Theorem deleteComment_authorization
  (req_user : ReqUser) (postId commentId : string) (s : Store) (p : Post) (c : Comment) :
  let allowed :=
    user_role req_user = "admin" ∨ author p = user_id req_user ∨ user c = user_id req_user in
  posts s !! postId = Some p →
  comments_id (comments p) commentId = Some c →
  (allowed →
     run (deleteComment req_user postId commentId) s
     = (mkResponse 200 (Msg "Comment deleted successfully"),
        mkStore (users s)
          (<[postId := mkPost (title p) (content p) (author p) (deleteOne (comments p) c)]>
             (posts s))))
  ∧ (¬ allowed →
     run (deleteComment req_user postId commentId) s
     = (mkResponse 403 (Msg "Access denied: You are not authorized to delete this comment"),
        s)).
Proof.
  intros allowed Hp Hc. unfold allowed, run, deleteComment. cbn.
  rewrite Hp. cbn. rewrite Hc.
  destruct (String.eqb_spec (user_role req_user) "admin") as [Ha|Ha];
    destruct (String.eqb_spec (author p) (user_id req_user)) as [Hpa|Hpa];
    destruct (String.eqb_spec (user c) (user_id req_user)) as [Hco|Hco];
    cbn; rewrite ?Hp; split; intros H; try reflexivity; try tauto.
Qed.

Lemma deleteComment_authorization_witness :
  let c := mkComment "c1" "U" "hello" in
  let s := mkStore ∅ {[ "P" := mkPost "t" "b" "W" [c] ]} in
  run (deleteComment (mkReqUser "V" "reader") "P" "c1") s
  = (mkResponse 403 (Msg "Access denied: You are not authorized to delete this comment"), s).
Proof.
  intros c s.
  refine (proj2 (deleteComment_authorization (mkReqUser "V" "reader") "P" "c1" s
                   (mkPost "t" "b" "W" [c]) c _ _) _); try reflexivity.
  cbn. intros [H|[H|H]]; discriminate.
Defined.

(** C8.  A post update or a post delete on an existing post by an actor who
    is neither the post's author nor an admin is answered 403 and the store
    is as before; when the actor is the author or an admin the ownership
    check passes and the request is answered 200. *)
Theorem post_ownership
  (req_user : ReqUser) (id : string) (req_title req_content : jsval) (s : Store) (p : Post) :
  posts s !! id = Some p →
  (author p ≠ user_id req_user ∧ user_role req_user ≠ "admin" →
     run (updatePost req_user id req_title req_content) s
     = (mkResponse 403 (Msg "Access denied"), s)
     ∧ run (deletePost req_user id) s
       = (mkResponse 403
            (DeniedPost "Access denied: You are not authorized to delete this post"
               (author p) (user_id req_user) (user_role req_user)), s))
  ∧ (author p = user_id req_user ∨ user_role req_user = "admin" →
     status (run (updatePost req_user id req_title req_content) s).1 = 200
     ∧ status (run (deletePost req_user id) s).1 = 200).
Proof.
  intros Hp. unfold run, updatePost, deletePost. cbn. rewrite Hp. cbn.
  destruct (String.eqb_spec (author p) (user_id req_user)) as [Hpa|Hpa];
    destruct (String.eqb_spec (user_role req_user) "admin") as [Ha|Ha];
    cbn; rewrite ?Hp; cbn; split; intros H; try (split; reflexivity); tauto.
Qed.

Lemma post_ownership_witness :
  let s := mkStore ∅ {[ "P" := mkPost "t" "b" "W" [] ]} in
  run (updatePost (mkReqUser "V" "author") "P" (JStr "x") JUndefined) s
  = (mkResponse 403 (Msg "Access denied"), s)
  ∧ run (deletePost (mkReqUser "V" "author") "P") s
    = (mkResponse 403
         (DeniedPost "Access denied: You are not authorized to delete this post"
            "W" "V" "author"), s).
Proof.
  intros s.
  refine (proj1 (post_ownership (mkReqUser "V" "author") "P" (JStr "x") JUndefined s
                   (mkPost "t" "b" "W" []) _) _); [reflexivity|].
  split; discriminate.
Defined.

(** C9.  An authorized update of an existing post leaves the stored title
    as it was when the supplied title is absent, null or the empty string,
    and likewise the content; so no update makes a title or a content empty
    that was not empty before. *)
Theorem updatePost_falsy_fallback
  (req_user : ReqUser) (id : string) (req_title req_content : jsval) (s : Store) (p : Post) :
  posts s !! id = Some p →
  author p = user_id req_user ∨ user_role req_user = "admin" →
  ∃ p', posts (run (updatePost req_user id req_title req_content) s).2 !! id = Some p'
    ∧ (req_title = JUndefined ∨ req_title = JNull ∨ req_title = JStr "" →
       title p' = title p)
    ∧ (req_content = JUndefined ∨ req_content = JNull ∨ req_content = JStr "" →
       content p' = content p)
    ∧ (title p' = "" → title p = "")
    ∧ (content p' = "" → content p = "").
Proof.
  intros Hp Hauth.
  exists (mkPost (js_or req_title (title p)) (js_or req_content (content p))
            (author p) (comments p)).
  split.
  - unfold run, updatePost. cbn. rewrite Hp. cbn.
    replace (negb (String.eqb (author p) (user_id req_user))
             && negb (String.eqb (user_role req_user) "admin")) with false.
    + cbn. rewrite Hp. cbn. apply lookup_insert_eq.
    + destruct Hauth as [->| ->]; rewrite String.eqb_refl; cbn;
        [reflexivity | symmetry; apply andb_false_r].
  - cbn. repeat split.
    + intros [-> | [-> | ->]]; reflexivity.
    + intros [-> | [-> | ->]]; reflexivity.
    + destruct req_title as [| |t]; cbn; try done.
      destruct (String.eqb_spec t "") as [->|Ht]; cbn; done.
    + destruct req_content as [| |t]; cbn; try done.
      destruct (String.eqb_spec t "") as [->|Ht]; cbn; done.
Qed.

Lemma updatePost_falsy_fallback_witness :
  let s := mkStore ∅ {[ "P" := mkPost "t" "b" "W" [] ]} in
  ∃ p', posts (run (updatePost (mkReqUser "W" "author") "P" (JStr "") (JStr "new")) s).2 !! "P"
        = Some p'
    ∧ title p' = "t".
Proof.
  intros s.
  destruct (updatePost_falsy_fallback (mkReqUser "W" "author") "P" (JStr "") (JStr "new") s
              (mkPost "t" "b" "W" []) eq_refl (or_introl eq_refl))
    as (p' & Hp' & Ht & _).
  exists p'. split; [exact Hp'|]. apply Ht. right. right. reflexivity.
Defined.

(** C10.  Adding a comment to an existing post is answered 201 and stores
    the post with the new comment, carrying the actor's id and the submitted
    text, as the last element of its comment list; the list before it, the
    title, the content and the author are as they were, and so is the rest
    of the store. *)
Theorem addComment_appends
  (req_user : ReqUser) (id : string) (req_comment : string) (s : Store) (p : Post) :
  posts s !! id = Some p →
  ∃ cid,
    let p' := mkPost (title p) (content p) (author p)
                (comments p ++ [mkComment cid (user_id req_user) req_comment]) in
    run (addComment req_user id req_comment) s
    = (mkResponse 201 (PostJson (mkPostDoc id p')),
       mkStore (users s) (<[id := p']> (posts s))).
Proof.
  intros Hp. exists (fresh (comment_id <$> comments p)).
  unfold run, addComment. cbn. rewrite Hp. cbn. rewrite Hp. reflexivity.
Qed.

Lemma addComment_appends_witness :
  let s := mkStore ∅ {[ "P" := mkPost "t" "b" "W" [mkComment "c1" "U" "hello"] ]} in
  ∃ cid,
    run (addComment (mkReqUser "V" "reader") "P" "hi") s
    = (mkResponse 201
         (PostJson (mkPostDoc "P" (mkPost "t" "b" "W"
            [mkComment "c1" "U" "hello"; mkComment cid "V" "hi"]))),
       mkStore ∅ (<["P" := mkPost "t" "b" "W"
            [mkComment "c1" "U" "hello"; mkComment cid "V" "hi"]]> (posts s))).
Proof.
  intros s.
  exact (addComment_appends (mkReqUser "V" "reader") "P" "hi" s
           (mkPost "t" "b" "W" [mkComment "c1" "U" "hello"]) eq_refl).
Defined.

(** ** More on the role update *)

Lemma includes_validRoles (v : jsval) :
  includes validRoles v = true → js_str v ∈ validRoles ∧ v = JStr (js_str v).
Proof.
  destruct v as [| |r]; cbn; try discriminate.
  unfold validRoles.
  destruct (String.eqb_spec r "admin") as [->|_]; [intros _; split; [repeat constructor|done]|].
  destruct (String.eqb_spec r "author") as [->|_]; [intros _; split; [repeat constructor|done]|].
  destruct (String.eqb_spec r "reader") as [->|_]; [intros _; split; [repeat constructor|done]|].
  discriminate.
Qed.

(** Every run of the role update with no other request in between either
    leaves the store as it is and answers with one of the five refusals
    other than "last admin", or passes all guards and stores the target
    with the requested role. *)
Lemma updateUserRole_run (req_user : ReqUser) (id : string) (newRole : jsval) (s : Store) :
  (run (updateUserRole req_user id newRole) s).2 = s
  ∧ (run (updateUserRole req_user id newRole) s).1
      ∈ [UserNotFound; PrivilegeRevoked; SelfModificationForbidden; InvalidRole;
         AdminCeilingReached]
  ∨ ∃ t c r,
      users s !! id = Some t
      ∧ users s !! user_id req_user = Some c
      ∧ role c = "admin"
      ∧ user_id req_user ≠ id
      ∧ newRole = JStr r
      ∧ r ∈ validRoles
      ∧ (r = "admin" → role t ≠ "admin" → countAdmins s ≤ 4)
      ∧ run (updateUserRole req_user id newRole) s
        = (roleUpdated (mkUserDoc id (mkUser (name t) (email t) (password t) r)),
           mkStore (<[id := mkUser (name t) (email t) (password t) r]> (users s)) (posts s)).
Proof.
  unfold run, updateUserRole, countAdmins, countUsers.
  destruct (includes validRoles newRole) eqn:Hvalid.
  2: { left. cbn -[Nat.leb]. destruct (users s !! id) as [t|]; cbn -[Nat.leb];
       [|split; [done|repeat constructor]].
       destruct (users s !! user_id req_user) as [c|]; cbn -[Nat.leb];
         [|split; [done|repeat constructor]].
       destruct (String.eqb (role c) "admin"); cbn -[Nat.leb]; [|split; [done|repeat constructor]].
       destruct (String.eqb (user_id req_user) id); split; first [done|repeat constructor]. }
  apply includes_validRoles in Hvalid as [Hin Hnew].
  set (r := js_str newRole) in *. clearbody r. subst newRole.
  cbn -[Nat.leb includes].
  destruct (users s !! id) as [t|] eqn:Ht; cbn -[Nat.leb includes];
    [|left; split; [done|repeat constructor]].
  destruct (users s !! user_id req_user) as [c|] eqn:Hc; cbn -[Nat.leb includes];
    [|left; split; [done|repeat constructor]].
  destruct (String.eqb_spec (role c) "admin") as [Hcr|Hcr]; cbn -[Nat.leb includes];
    [|left; split; [done|repeat constructor]].
  destruct (String.eqb_spec (user_id req_user) id) as [Heq|Hne]; cbn -[Nat.leb includes];
    [left; split; [done|repeat constructor]|].
  assert (Htwo : role t = "admin" →
            Nat.leb (size (filter (λ kv : string * User, role kv.2 = "admin") (users s))) 1
            = false).
  { intros Htr. apply Nat.leb_gt.
    pose proof (countUsers_two "admin" (users s) _ _ c t Hne Hc Hcr Ht Htr) as H2.
    unfold countUsers in H2. lia. }
  destruct (String.eqb_spec (role t) "admin") as [Htr|Htr];
    destruct (String.eqb_spec r "admin") as [Hr|Hr]; cbn -[Nat.leb].
  - rewrite Ht. right. exists t, c, r. repeat split; try done.
  - rewrite (Htwo Htr). cbn -[Nat.leb]. rewrite Ht. right. exists t, c, r.
    repeat split; try done.
  - destruct (Nat.leb_spec 5
                (size (filter (λ kv : string * User, role kv.2 = "admin") (users s))))
      as [Hge|Hlt]; cbn -[Nat.leb].
    + left. split; [done|repeat constructor].
    + rewrite Ht. right. exists t, c, r. repeat split; try done. intros _ _. lia.
  - rewrite Ht. right. exists t, c, r. repeat split; try done.
Qed.

(** X1.  With no other request in between, a role update never takes the
    last admin away: if the store has an admin before the request it has
    one after it, whatever the actor, the target and the requested role. *)
Theorem updateUserRole_keeps_an_admin
  (req_user : ReqUser) (id : string) (newRole : jsval) (s : Store) :
  1 ≤ countAdmins s →
  1 ≤ countAdmins (run (updateUserRole req_user id newRole) s).2.
Proof.
  intros Hs.
  destruct (updateUserRole_run req_user id newRole s)
    as [[-> _]|(t & c & r & Ht & Hc & Hcr & Hne & _ & _ & _ & ->)]; [done|].
  unfold countAdmins. cbn [snd users].
  apply (countUsers_lookup "admin" _ (user_id req_user) c); [|done].
  by rewrite lookup_insert_ne.
Qed.

Lemma updateUserRole_keeps_an_admin_witness :
  let s := mkStore {[ "A" := mkUser "a" "a@x" "pw" "admin";
                      "B" := mkUser "b" "b@x" "pw" "admin" ]} ∅ in
  1 ≤ countAdmins (run (updateUserRole (mkReqUser "A" "admin") "B" (JStr "reader")) s).2.
Proof.
  intros s.
  apply (updateUserRole_keeps_an_admin (mkReqUser "A" "admin") "B" (JStr "reader") s).
  vm_compute. lia.
Defined.

(** X2.  With no other request in between, a role update never takes the
    number of admins above five. *)
Theorem updateUserRole_keeps_ceiling
  (req_user : ReqUser) (id : string) (newRole : jsval) (s : Store) :
  countAdmins s ≤ 5 →
  countAdmins (run (updateUserRole req_user id newRole) s).2 ≤ 5.
Proof.
  intros Hs.
  destruct (updateUserRole_run req_user id newRole s)
    as [[-> _]|(t & c & r & Ht & Hc & Hcr & Hne & _ & _ & Hceil & ->)]; [done|].
  unfold countAdmins in *. cbn [snd users].
  rewrite countUsers_insert, countUsers_delete, Ht. cbn [role].
  destruct (decide (r = "admin")) as [Hr|Hr];
    destruct (decide (role t = "admin")) as [Htr|Htr];
    first [ lia
          | pose proof (countUsers_lookup "admin" _ _ _ Ht Htr); lia
          | specialize (Hceil Hr Htr); lia ].
Qed.

Lemma updateUserRole_keeps_ceiling_witness :
  let s := mkStore {[ "A" := mkUser "a" "a@x" "pw" "admin";
                      "B" := mkUser "b" "b@x" "pw" "reader" ]} ∅ in
  countAdmins (run (updateUserRole (mkReqUser "A" "admin") "B" (JStr "admin")) s).2 ≤ 5.
Proof.
  intros s.
  apply (updateUserRole_keeps_ceiling (mkReqUser "A" "admin") "B" (JStr "admin") s).
  vm_compute. lia.
Defined.

(** X3.  With no other request in between, the "last admin" refusal is out
    of reach: a request that gets as far as counting the admins has found
    two of them, the actor and the target, so the count it reads is never 1
    or less. *)
Theorem updateUserRole_last_admin_out_of_reach
  (req_user : ReqUser) (id : string) (newRole : jsval) (s : Store) :
  (run (updateUserRole req_user id newRole) s).1 ≠ LastAdminProtection.
Proof.
  destruct (updateUserRole_run req_user id newRole s)
    as [[_ Hin]|(t & c & r & _ & _ & _ & _ & _ & _ & _ & ->)].
  - repeat (apply elem_of_cons in Hin as [->|Hin]); try discriminate.
    by apply elem_of_nil in Hin.
  - discriminate.
Qed.

(** X4.  A role update touches nothing but the role of its target: the
    posts, the set of user identifiers and every other user are as before,
    and the target keeps its name, email and password. *)
Theorem updateUserRole_frame
  (req_user : ReqUser) (id : string) (newRole : jsval) (s : Store) :
  let s' := (run (updateUserRole req_user id newRole) s).2 in
  posts s' = posts s
  ∧ dom (users s') = dom (users s)
  ∧ (∀ j, j ≠ id → users s' !! j = users s !! j)
  ∧ (∀ u', users s' !! id = Some u' →
       ∃ u, users s !! id = Some u
            ∧ name u' = name u ∧ email u' = email u ∧ password u' = password u).
Proof.
  intros s'. unfold s'.
  destruct (updateUserRole_run req_user id newRole s)
    as [[-> _]|(t & c & r & Ht & _ & _ & _ & _ & _ & _ & ->)].
  - repeat split; try done. intros u' Hu'. by exists u'.
  - cbn [snd users posts]. repeat split.
    + rewrite dom_insert_L. apply subseteq_union_1_L, singleton_subseteq_l.
      by apply elem_of_dom_2 with t.
    + intros j Hj. by rewrite lookup_insert_ne.
    + intros u' Hu'. rewrite lookup_insert_eq in Hu'. injection Hu' as <-.
      by exists t.
Qed.

(** X5.  The answer of a role update tells what happened to the store: a
    request that is not answered 200 has written nothing, and one that is
    answered 200 has stored the target with the requested role, which is
    one of the three valid roles. *)
Theorem updateUserRole_answer_and_store
  (req_user : ReqUser) (id : string) (newRole : jsval) (s : Store) :
  let '(r, s') := run (updateUserRole req_user id newRole) s in
  (status r ≠ 200 → s' = s)
  ∧ (status r = 200 →
       role <$> users s' !! id = Some (js_str newRole) ∧ js_str newRole ∈ validRoles).
Proof.
  destruct (updateUserRole_run req_user id newRole s)
    as [[Hs Hin]|(t & c & r & _ & _ & _ & _ & -> & Hr & _ & ->)].
  - destruct (run (updateUserRole req_user id newRole) s) as [r s'].
    cbn [fst snd] in *. subst s'. split; [done|]. intros H200.
    repeat (apply elem_of_cons in Hin as [->|Hin]); try discriminate.
    by apply elem_of_nil in Hin.
  - split; [done|]. intros _. cbn [users js_str]. by rewrite lookup_insert_eq.
Qed.

(** X6.  A role update keeps every stored role within the three valid roles. *)
Theorem updateUserRole_rolesValid
  (req_user : ReqUser) (id : string) (newRole : jsval) (s : Store) :
  rolesValid s →
  rolesValid (run (updateUserRole req_user id newRole) s).2.
Proof.
  intros Hs.
  destruct (updateUserRole_run req_user id newRole s)
    as [[-> _]|(t & c & r & _ & _ & _ & _ & _ & Hr & _ & ->)]; [done|].
  unfold rolesValid in *. cbn [snd users]. by apply map_Forall_insert_2.
Qed.

Lemma updateUserRole_rolesValid_witness :
  let s := mkStore {[ "A" := mkUser "a" "a@x" "pw" "admin";
                      "B" := mkUser "b" "b@x" "pw" "reader" ]} ∅ in
  rolesValid (run (updateUserRole (mkReqUser "A" "admin") "B" (JStr "author")) s).2.
Proof.
  intros s.
  apply (updateUserRole_rolesValid (mkReqUser "A" "admin") "B" (JStr "author") s).
  unfold rolesValid, s. cbn [users].
  apply map_Forall_insert_2; [vm_compute; repeat constructor|].
  apply map_Forall_insert_2; [vm_compute; repeat constructor|].
  apply map_Forall_empty.
Defined.

(** ** More on user deletion *)

(** X7.  Deleting a user deletes nothing else: every other user and every
    post is as before, so the posts of the deleted user stay in the store
    under an author that no longer exists. *)
Theorem deleteUser_frame (id : string) (s : Store) :
  let s' := (run (deleteUser id) s).2 in
  users s' !! id = None
  ∧ (∀ j, j ≠ id → users s' !! j = users s !! j)
  ∧ posts s' = posts s
  ∧ (∀ pid p, posts s !! pid = Some p → author p = id →
       posts s' !! pid = Some p ∧ users s' !! author p = None).
Proof.
  assert (Hs' : (run (deleteUser id) s).2 = mkStore (delete id (users s)) (posts s)).
  { unfold run, deleteUser. cbn. by destruct (users s !! id). }
  intros s'. unfold s'. rewrite Hs'. cbn [users posts].
  split; [apply lookup_delete_eq|].
  split; [intros j Hj; by apply lookup_delete_ne|].
  split; [done|].
  intros pid p Hp ->. split; [done|apply lookup_delete_eq].
Qed.

(** X8.  A user can be deleted once: whatever the first request did, a
    second deletion of the same identifier is answered 404 "User not found"
    and changes nothing. *)
Theorem deleteUser_twice (id : string) (s : Store) :
  let s' := (run (deleteUser id) s).2 in
  run (deleteUser id) s' = (UserNotFound, s').
Proof.
  unfold run, deleteUser. cbn.
  assert (Hd : delete id (delete id (users s)) = delete id (users s))
    by (apply delete_id, lookup_delete_eq).
  destruct (users s !! id); cbn; rewrite lookup_delete_eq, Hd; reflexivity.
Qed.

(** X9.  Deleting a user who is not an admin keeps the number of admins;
    deleting an admin lowers it by one.  No deletion is refused. *)
Theorem deleteUser_admin_count (id : string) (s : Store) (u : User) :
  users s !! id = Some u →
  status (run (deleteUser id) s).1 = 200
  ∧ countAdmins (run (deleteUser id) s).2
    = if decide (role u = "admin") then countAdmins s - 1 else countAdmins s.
Proof.
  intros Hu. unfold run, deleteUser, countAdmins. cbn [runWith perform tail].
  rewrite Hu. cbn [fmap option_fmap option_map fst snd users runWith res status].
  split; [reflexivity|]. rewrite countUsers_delete, Hu.
  case_decide; lia.
Qed.

Lemma deleteUser_admin_count_witness :
  let s := mkStore {[ "A" := mkUser "a" "a@x" "pw" "admin";
                      "B" := mkUser "b" "b@x" "pw" "reader" ]} ∅ in
  status (run (deleteUser "B") s).1 = 200
  ∧ countAdmins (run (deleteUser "B") s).2 = countAdmins s.
Proof.
  intros s.
  exact (deleteUser_admin_count "B" s (mkUser "b" "b@x" "pw" "reader") eq_refl).
Defined.

(** X10.  The re-verification of the actor works against a deleted account:
    once the actor's document is deleted, a role update sent with the
    actor's token, whatever role the token carries, is answered 403 "You no
    longer have admin privileges" for every existing target and writes
    nothing. *)
Theorem deleteUser_then_updateUserRole
  (req_user : ReqUser) (id : string) (newRole : jsval) (s : Store) (t : User) :
  users s !! id = Some t →
  id ≠ user_id req_user →
  let s' := (run (deleteUser (user_id req_user)) s).2 in
  run (updateUserRole req_user id newRole) s' = (PrivilegeRevoked, s').
Proof.
  intros Ht Hne s'.
  assert (Hs' : s' = mkStore (delete (user_id req_user) (users s)) (posts s)).
  { unfold s', run, deleteUser. cbn. by destruct (users s !! user_id req_user). }
  rewrite Hs'. unfold run, updateUserRole. cbn.
  rewrite lookup_delete_ne, Ht by done. cbn. rewrite lookup_delete_eq. reflexivity.
Qed.

Lemma deleteUser_then_updateUserRole_witness :
  let s := mkStore {[ "A" := mkUser "a" "a@x" "pw" "admin";
                      "B" := mkUser "b" "b@x" "pw" "reader" ]} ∅ in
  let s' := (run (deleteUser "A") s).2 in
  run (updateUserRole (mkReqUser "A" "admin") "B" (JStr "admin")) s' = (PrivilegeRevoked, s').
Proof.
  intros s.
  apply (deleteUser_then_updateUserRole (mkReqUser "A" "admin") "B" (JStr "admin") s
           (mkUser "b" "b@x" "pw" "reader")); [reflexivity|discriminate].
Defined.

(** ** More on registration *)

Lemma findOne_cases (e : string) (us : gmap string User) :
  (∃ i u, us !! i = Some u ∧ email u = e
          ∧ head (map_to_list (filter (λ kv : string * User, email kv.2 = e) us))
            = Some (i, u))
  ∨ ((∀ i u, us !! i = Some u → email u ≠ e)
     ∧ head (map_to_list (filter (λ kv : string * User, email kv.2 = e) us)) = None).
Proof.
  destruct (map_to_list (filter (λ kv : string * User, email kv.2 = e) us))
    as [|[i u] l] eqn:Hl.
  - right. split; [|done]. apply map_to_list_empty_iff in Hl.
    intros i u Hu He.
    by apply (map_filter_empty_not_lookup _ _ i u Hl).
  - left. exists i, u.
    assert (Hin : (i, u) ∈ map_to_list (filter (λ kv : string * User, email kv.2 = e) us))
      by (rewrite Hl; constructor).
    apply elem_of_map_to_list, map_lookup_filter_Some in Hin as [Hu He]. done.
Qed.

(** A registration either finds the email taken, answers 400 and writes
    nothing, or stores the new user under an unused identifier with the role
    the count of users gives. *)
Lemma registerUser_run (req_name req_email req_password : string) (s : Store) :
  ((∃ i u, users s !! i = Some u ∧ email u = req_email)
   ∧ run (registerUser req_name req_email req_password) s
     = (mkResponse 400 (Msg "User already exists"), s))
  ∨ ((∀ i u, users s !! i = Some u → email u ≠ req_email)
     ∧ ∃ id r,
         users s !! id = None
         ∧ r = (if decide (users s = ∅) then "admin" else "reader")
         ∧ run (registerUser req_name req_email req_password) s
           = (mkResponse 201 (UserInfo id req_name req_email r),
              mkStore (<[id := mkUser req_name req_email req_password r]> (users s))
                      (posts s))).
Proof.
  unfold run, registerUser. cbn.
  destruct (findOne_cases req_email (users s)) as [(i & u & Hu & He & ->)|[Hfree ->]]; cbn.
  - left. split; [by exists i, u|done].
  - right. split; [done|]. exists (fresh (dom (users s))).
    destruct (size (users s)) eqn:Hsz.
    + apply map_size_empty_inv in Hsz. rewrite decide_True by done.
      eexists. split; [apply fresh_user_id|]. split; reflexivity.
    + assert (users s ≠ ∅) by (intros H0; rewrite H0, map_size_empty in Hsz; done).
      rewrite decide_False by done.
      eexists. split; [apply fresh_user_id|]. split; reflexivity.
Qed.

(** X11.  A registration under an email some user already has is answered
    400 "User already exists" and writes nothing. *)
Theorem registerUser_existing_email
  (req_name req_email req_password : string) (s : Store) (i : string) (u : User) :
  users s !! i = Some u →
  email u = req_email →
  run (registerUser req_name req_email req_password) s
  = (mkResponse 400 (Msg "User already exists"), s).
Proof.
  intros Hu He.
  destruct (registerUser_run req_name req_email req_password s) as [[_ H]|[Hfree _]];
    [done|]. by destruct (Hfree i u Hu).
Qed.

Lemma registerUser_existing_email_witness :
  let s := mkStore {[ "A" := mkUser "a" "a@x" "pw" "admin" ]} ∅ in
  run (registerUser "other" "a@x" "pw2") s
  = (mkResponse 400 (Msg "User already exists"), s).
Proof.
  intros s.
  exact (registerUser_existing_email "other" "a@x" "pw2" s "A"
           (mkUser "a" "a@x" "pw" "admin") eq_refl eq_refl).
Defined.

(** X12.  Registration keeps emails unique: if no two users share an email
    before a registration, none do after it. *)
Theorem registerUser_emailsUnique
  (req_name req_email req_password : string) (s : Store) :
  emailsUnique s →
  emailsUnique (run (registerUser req_name req_email req_password) s).2.
Proof.
  intros Hs.
  destruct (registerUser_run req_name req_email req_password s)
    as [[_ ->]|[Hfree (id & r & Hid & _ & ->)]]; [done|].
  unfold emailsUnique in *. cbn [snd users]. intros i j u v Hu Hv He.
  destruct (decide (i = id)) as [->|Hi]; destruct (decide (j = id)) as [->|Hj]; [done|..].
  - rewrite lookup_insert_eq in Hu. rewrite lookup_insert_ne in Hv by done.
    injection Hu as <-. cbn in He. by destruct (Hfree j v Hv).
  - rewrite lookup_insert_eq in Hv. rewrite lookup_insert_ne in Hu by done.
    injection Hv as <-. cbn in He. by destruct (Hfree i u Hu).
  - rewrite lookup_insert_ne in Hu, Hv by done. by apply (Hs i j u v).
Qed.

Lemma registerUser_emailsUnique_witness :
  let s := mkStore {[ "A" := mkUser "a" "a@x" "pw" "admin";
                      "B" := mkUser "b" "b@x" "pw" "reader" ]} ∅ in
  emailsUnique s
  ∧ size (users (run (registerUser "c" "c@x" "pw") s).2) = 3
  ∧ emailsUnique (run (registerUser "c" "c@x" "pw") s).2.
Proof.
  intros s.
  assert (Hs : emailsUnique s).
  { intros i j u v Hu Hv He. unfold s in Hu, Hv. cbn [users] in Hu, Hv.
    apply lookup_insert_Some in Hu as [[<- <-]|[_ Hu]];
      apply lookup_insert_Some in Hv as [[<- <-]|[_ Hv]]; try done.
    - apply lookup_singleton_Some in Hv as [_ <-]. discriminate.
    - apply lookup_singleton_Some in Hu as [_ <-]. discriminate.
    - apply lookup_singleton_Some in Hu as [<- _].
      by apply lookup_singleton_Some in Hv as [<- _]. }
  split; [exact Hs|]. split; [vm_compute; reflexivity|].
  exact (registerUser_emailsUnique "c" "c@x" "pw" s Hs).
Defined.

(** X13.  Two registrations under one email, one after the other: the
    second is answered 400 "User already exists", whatever the store was and
    whatever names and passwords were sent. *)
Theorem registerUser_twice
  (name1 password1 name2 password2 req_email : string) (s : Store) :
  let s' := (run (registerUser name1 req_email password1) s).2 in
  run (registerUser name2 req_email password2) s'
  = (mkResponse 400 (Msg "User already exists"), s').
Proof.
  intros s'.
  destruct (registerUser_run name2 req_email password2 s') as [[_ H]|[Hfree _]]; [done|].
  exfalso. unfold s' in Hfree.
  destruct (registerUser_run name1 req_email password1 s)
    as [[(i & u & Hu & He) Hrun]|[_ (id & r & _ & _ & Hrun)]];
    rewrite Hrun in Hfree; cbn [snd users] in Hfree.
  - by apply (Hfree i u).
  - apply (Hfree id (mkUser name1 req_email password1 r)); [apply lookup_insert_eq|done].
Qed.

(** X14.  A registration touches no existing user and no post, and it makes
    an admin only in an empty collection: when there are users already, the
    number of admins is as before. *)
Theorem registerUser_frame (req_name req_email req_password : string) (s : Store) :
  let s' := (run (registerUser req_name req_email req_password) s).2 in
  (∀ i u, users s !! i = Some u → users s' !! i = Some u)
  ∧ posts s' = posts s
  ∧ (users s ≠ ∅ → countAdmins s' = countAdmins s).
Proof.
  intros s'. unfold s'.
  destruct (registerUser_run req_name req_email req_password s)
    as [[_ ->]|[_ (id & r & Hid & Hr & ->)]]; [done|].
  cbn [snd users posts]. split; [|split; [done|]].
  - intros i u Hu. rewrite lookup_insert_ne; [done|]. intros <-. congruence.
  - intros Hne. rewrite decide_False in Hr by done. subst r.
    unfold countAdmins. cbn [users].
    rewrite countUsers_insert, countUsers_delete, Hid. cbn [role].
    rewrite decide_False by discriminate. reflexivity.
Qed.

(** X15.  Starting from an empty user collection, the first registration
    makes an admin and a second one, under another email, makes a reader;
    after both there is exactly one admin. *)
Theorem registerUser_first_then_second
  (name1 email1 password1 name2 email2 password2 : string) (s : Store) :
  users s = ∅ →
  email1 ≠ email2 →
  let '(r1, s1) := run (registerUser name1 email1 password1) s in
  let '(r2, s2) := run (registerUser name2 email2 password2) s1 in
  (∃ id1, r1 = mkResponse 201 (UserInfo id1 name1 email1 "admin"))
  ∧ (∃ id2, r2 = mkResponse 201 (UserInfo id2 name2 email2 "reader"))
  ∧ countAdmins s2 = 1.
Proof.
  intros Hempty Hne.
  destruct (registerUser_run name1 email1 password1 s)
    as [[(i & u & Hu & _) _]|[_ (id1 & r1 & Hid1 & Hr1 & ->)]].
  { by rewrite Hempty, lookup_empty in Hu. }
  rewrite decide_True in Hr1 by done. subst r1.
  set (s1 := mkStore _ _).
  destruct (registerUser_run name2 email2 password2 s1)
    as [[(i & u & Hu & He) _]|[_ (id2 & r2 & Hid2 & Hr2 & ->)]].
  { unfold s1 in Hu. cbn [users] in Hu. rewrite Hempty in Hu.
    apply lookup_insert_Some in Hu as [[_ <-]|[_ Hu]]; [done|].
    by rewrite lookup_empty in Hu. }
  assert (Hs1 : users s1 ≠ ∅).
  { unfold s1. cbn [users]. apply insert_non_empty. }
  rewrite decide_False in Hr2 by done. subst r2.
  split; [by exists id1|]. split; [by exists id2|].
  unfold countAdmins. cbn [users].
  rewrite countUsers_insert, countUsers_delete, Hid2. cbn [role].
  rewrite decide_False by discriminate.
  unfold s1. cbn [users].
  rewrite countUsers_insert, countUsers_delete, Hid1. cbn [role].
  rewrite decide_True by done. rewrite Hempty. reflexivity.
Qed.

Lemma registerUser_first_then_second_witness :
  let '(r1, s1) := run (registerUser "a" "a@x" "pw") (mkStore ∅ ∅) in
  let '(r2, s2) := run (registerUser "b" "b@x" "pw") s1 in
  (∃ id1, r1 = mkResponse 201 (UserInfo id1 "a" "a@x" "admin"))
  ∧ (∃ id2, r2 = mkResponse 201 (UserInfo id2 "b" "b@x" "reader"))
  ∧ countAdmins s2 = 1.
Proof.
  apply (registerUser_first_then_second "a" "a@x" "pw" "b" "b@x" "pw" (mkStore ∅ ∅));
    [reflexivity|discriminate].
Defined.

(** X16.  Registration and deletion keep every stored role within the three
    valid roles. *)
Theorem registerUser_deleteUser_rolesValid
  (req_name req_email req_password id : string) (s : Store) :
  rolesValid s →
  rolesValid (run (registerUser req_name req_email req_password) s).2
  ∧ rolesValid (run (deleteUser id) s).2.
Proof.
  intros Hs. split.
  - destruct (registerUser_run req_name req_email req_password s)
      as [[_ ->]|[_ (i & r & _ & Hr & ->)]]; [done|].
    unfold rolesValid in *. cbn [snd users]. apply map_Forall_insert_2; [|done].
    cbn [role]. subst r. case_decide; repeat constructor.
  - unfold run, deleteUser. cbn.
    assert (rolesValid (mkStore (delete id (users s)) (posts s)))
      by (by apply map_Forall_delete).
    by destruct (users s !! id).
Qed.

Lemma registerUser_deleteUser_rolesValid_witness :
  let s := mkStore {[ "A" := mkUser "a" "a@x" "pw" "admin";
                      "B" := mkUser "b" "b@x" "pw" "reader" ]} ∅ in
  rolesValid s
  ∧ size (users (run (registerUser "c" "c@x" "pw") s).2) = 3
  ∧ size (users (run (deleteUser "B") s).2) = 1
  ∧ rolesValid (run (registerUser "c" "c@x" "pw") s).2
  ∧ rolesValid (run (deleteUser "B") s).2.
Proof.
  intros s.
  assert (Hs : rolesValid s).
  { unfold rolesValid, s. cbn [users].
    apply map_Forall_insert_2; [vm_compute; repeat constructor|].
    apply map_Forall_insert_2; [vm_compute; repeat constructor|].
    apply map_Forall_empty. }
  split; [exact Hs|]. split; [vm_compute; reflexivity|]. split; [vm_compute; reflexivity|].
  exact (registerUser_deleteUser_rolesValid "c" "c@x" "pw" "B" s Hs).
Defined.

(** ** Reading a user *)

(** X17.  The profile request answers from the store, not from the token:
    right after a role update that is answered 200, the profile of the
    target shows the new role, whatever role the target's token still
    carries, with the name and email of before; and the profile request
    writes nothing. *)
Theorem getUserProfile_after_updateUserRole
  (req_user : ReqUser) (id : string) (newRole : jsval) (tokenRole : string) (s : Store) :
  let '(r, s') := run (updateUserRole req_user id newRole) s in
  status r = 200 →
  ∃ u, users s !! id = Some u
       ∧ run (getUserProfile (mkReqUser id tokenRole)) s'
         = (mkResponse 200 (UserInfo id (name u) (email u) (js_str newRole)), s').
Proof.
  destruct (updateUserRole_run req_user id newRole s)
    as [[Hs Hin]|(t & c & r & Ht & _ & _ & _ & -> & _ & _ & ->)].
  - destruct (run (updateUserRole req_user id newRole) s) as [r s'].
    cbn [fst snd] in *. intros H200.
    repeat (apply elem_of_cons in Hin as [->|Hin]); try discriminate.
    by apply elem_of_nil in Hin.
  - intros _. exists t. split; [done|].
    unfold run, getUserProfile. cbn. rewrite lookup_insert_eq. reflexivity.
Qed.

Lemma getUserProfile_after_updateUserRole_witness :
  let s := mkStore {[ "A" := mkUser "a" "a@x" "pw" "admin";
                      "B" := mkUser "b" "b@x" "pw" "reader" ]} ∅ in
  let s' := (run (updateUserRole (mkReqUser "A" "admin") "B" (JStr "author")) s).2 in
  ∃ u, users s !! "B" = Some u
       ∧ run (getUserProfile (mkReqUser "B" "reader")) s'
         = (mkResponse 200 (UserInfo "B" (name u) (email u) "author"), s').
Proof.
  intros s.
  exact (getUserProfile_after_updateUserRole (mkReqUser "A" "admin") "B" (JStr "author")
           "reader" s eq_refl).
Defined.

(** ** More on posts and comments *)

(** The ownership check of post update and post delete. *)
Lemma ownership_check (req_user : ReqUser) (p : Post) :
  negb (String.eqb (author p) (user_id req_user))
  && negb (String.eqb (user_role req_user) "admin")
  = if decide (author p = user_id req_user ∨ user_role req_user = "admin")
    then false else true.
Proof.
  destruct (String.eqb_spec (author p) (user_id req_user));
    destruct (String.eqb_spec (user_role req_user) "admin");
    case_decide; cbn; tauto.
Qed.

Lemma updatePost_run
  (req_user : ReqUser) (id : string) (req_title req_content : jsval) (s : Store) :
  run (updatePost req_user id req_title req_content) s
  = match posts s !! id with
    | None => (mkResponse 404 (Msg "Post not found"), s)
    | Some p =>
        if decide (author p = user_id req_user ∨ user_role req_user = "admin")
        then
          let p' := mkPost (js_or req_title (title p)) (js_or req_content (content p))
                      (author p) (comments p) in
          (mkResponse 200 (PostJson (mkPostDoc id p')),
           mkStore (users s) (<[id := p']> (posts s)))
        else (mkResponse 403 (Msg "Access denied"), s)
    end.
Proof.
  unfold run, updatePost. cbn. destruct (posts s !! id) as [p|] eqn:Hp; cbn; [|done].
  rewrite ownership_check. case_decide; cbn; [|done]. rewrite Hp. done.
Qed.

Lemma deletePost_run (req_user : ReqUser) (id : string) (s : Store) :
  run (deletePost req_user id) s
  = match posts s !! id with
    | None => (mkResponse 404 (Msg "Post not found"), s)
    | Some p =>
        if decide (author p = user_id req_user ∨ user_role req_user = "admin")
        then (mkResponse 200 (Msg "Post deleted successfully"),
              mkStore (users s) (delete id (posts s)))
        else (mkResponse 403
                (DeniedPost "Access denied: You are not authorized to delete this post"
                   (author p) (user_id req_user) (user_role req_user)), s)
    end.
Proof.
  unfold run, deletePost. cbn. destruct (posts s !! id) as [p|] eqn:Hp; cbn; [|done].
  rewrite ownership_check. case_decide; cbn; [|done]. rewrite Hp. done.
Qed.

Lemma addComment_run (req_user : ReqUser) (id : string) (req_comment : string) (s : Store) :
  run (addComment req_user id req_comment) s
  = match posts s !! id with
    | None => (mkResponse 404 (Msg "Post not found"), s)
    | Some p =>
        let p' := mkPost (title p) (content p) (author p)
                    (push (comments p) (user_id req_user) req_comment) in
        (mkResponse 201 (PostJson (mkPostDoc id p')),
         mkStore (users s) (<[id := p']> (posts s)))
    end.
Proof.
  unfold run, addComment. cbn. destruct (posts s !! id) as [p|] eqn:Hp; cbn; [|done].
  rewrite Hp. done.
Qed.

Lemma deleteComment_run (req_user : ReqUser) (postId commentId : string) (s : Store) :
  run (deleteComment req_user postId commentId) s
  = match posts s !! postId with
    | None => (mkResponse 404 (Msg "Post not found"), s)
    | Some p =>
        match comments_id (comments p) commentId with
        | None => (mkResponse 404 (Msg "Comment not found"), s)
        | Some c =>
            if decide (user_role req_user = "admin" ∨ author p = user_id req_user
                       ∨ user c = user_id req_user)
            then (mkResponse 200 (Msg "Comment deleted successfully"),
                  mkStore (users s)
                    (<[postId := mkPost (title p) (content p) (author p)
                                   (deleteOne (comments p) c)]> (posts s)))
            else (mkResponse 403
                    (Msg "Access denied: You are not authorized to delete this comment"), s)
        end
    end.
Proof.
  unfold run, deleteComment. cbn. destruct (posts s !! postId) as [p|] eqn:Hp; cbn; [|done].
  destruct (comments_id (comments p) commentId) as [c|]; [|done].
  destruct (String.eqb_spec (user_role req_user) "admin");
    destruct (String.eqb_spec (author p) (user_id req_user));
    destruct (String.eqb_spec (user c) (user_id req_user));
    case_decide; cbn; rewrite ?Hp; try done; tauto.
Qed.

(** X18.  The post and comment handlers never write to the user collection;
    in particular they keep the number of admins. *)
Theorem post_handlers_keep_users
  (req_user : ReqUser) (id commentId : string) (req_title req_content : jsval)
  (req_comment : string) (s : Store) :
  users (run (updatePost req_user id req_title req_content) s).2 = users s
  ∧ users (run (deletePost req_user id) s).2 = users s
  ∧ users (run (addComment req_user id req_comment) s).2 = users s
  ∧ users (run (deleteComment req_user id commentId) s).2 = users s.
Proof.
  rewrite updatePost_run, deletePost_run, addComment_run, deleteComment_run.
  destruct (posts s !! id) as [p|]; [|done].
  destruct (comments_id (comments p) commentId); repeat case_decide; done.
Qed.

(** X19.  The post and comment handlers decide on the token alone: they
    never read the user collection, so on two stores with the same posts
    they give the same answer and leave the same posts, whatever the users
    are.  A role change or a deletion of the actor in the store does not
    reach them. *)
Theorem post_handlers_ignore_users
  (req_user : ReqUser) (id commentId : string) (req_title req_content : jsval)
  (req_comment : string) (s1 s2 : Store) :
  posts s1 = posts s2 →
  let same (h : handler response) :=
    (run h s1).1 = (run h s2).1 ∧ posts (run h s1).2 = posts (run h s2).2 in
  same (updatePost req_user id req_title req_content)
  ∧ same (deletePost req_user id)
  ∧ same (addComment req_user id req_comment)
  ∧ same (deleteComment req_user id commentId).
Proof.
  intros Hposts same. unfold same.
  rewrite !updatePost_run, !deletePost_run, !addComment_run, !deleteComment_run.
  rewrite <- Hposts.
  destruct (posts s1 !! id) as [p|]; [|done].
  destruct (comments_id (comments p) commentId); repeat case_decide; cbn; rewrite ?Hposts; done.
Qed.

Lemma post_handlers_ignore_users_witness :
  let post := mkPost "t" "b" "W" [] in
  let s1 := mkStore {[ "V" := mkUser "v" "v@x" "pw" "admin" ]} {[ "P" := post ]} in
  let s2 := mkStore {[ "V" := mkUser "v" "v@x" "pw" "reader" ]} {[ "P" := post ]} in
  (run (deletePost (mkReqUser "V" "admin") "P") s1).1
  = (run (deletePost (mkReqUser "V" "admin") "P") s2).1
  ∧ posts (run (deletePost (mkReqUser "V" "admin") "P") s1).2
    = posts (run (deletePost (mkReqUser "V" "admin") "P") s2).2.
Proof.
  intros post s1 s2.
  exact (proj1 (proj2 (post_handlers_ignore_users (mkReqUser "V" "admin") "P" "c"
                         JUndefined JUndefined "hi" s1 s2 eq_refl))).
Defined.

Lemma js_or_idemp (v : jsval) (d : string) : js_or v (js_or v d) = js_or v d.
Proof. destruct v as [| |t]; cbn; try done. by destruct (String.eqb t ""). Qed.

(** X20.  A post update is idempotent: sending the same update a second
    time gets the same answer and leaves the store as the first left it. *)
Theorem updatePost_idempotent
  (req_user : ReqUser) (id : string) (req_title req_content : jsval) (s : Store) :
  let '(r, s') := run (updatePost req_user id req_title req_content) s in
  run (updatePost req_user id req_title req_content) s' = (r, s').
Proof.
  rewrite updatePost_run. destruct (posts s !! id) as [p|] eqn:Hp.
  - case_decide as Hauth; cbv beta iota zeta.
    + rewrite updatePost_run. cbn [users posts]. rewrite lookup_insert_eq.
      cbn [author title content comments].
      rewrite decide_True by done. rewrite !js_or_idemp, insert_insert_eq. done.
    + rewrite updatePost_run, Hp. by rewrite decide_False.
  - cbv beta iota zeta. by rewrite updatePost_run, Hp.
Qed.

(** X21.  A post update changes the title and the content of its post and
    nothing else: author and comments of the post are as before, and so is
    every other post.  A title that is a non-empty string replaces the
    stored one when the update is let through. *)
Theorem updatePost_frame
  (req_user : ReqUser) (id : string) (req_title req_content : jsval) (s : Store) (p : Post) :
  posts s !! id = Some p →
  let '(r, s') := run (updatePost req_user id req_title req_content) s in
  (∀ j, j ≠ id → posts s' !! j = posts s !! j)
  ∧ ∃ p', posts s' !! id = Some p'
      ∧ author p' = author p ∧ comments p' = comments p
      ∧ (∀ t, status r = 200 → req_title = JStr t → t ≠ "" → title p' = t).
Proof.
  intros Hp. rewrite updatePost_run, Hp. case_decide.
  - cbn [posts]. split; [intros j Hj; by rewrite lookup_insert_ne|].
    eexists. split; [apply lookup_insert_eq|]. cbn [author comments title].
    split; [done|]. split; [done|].
    intros t _ -> Ht. cbn. apply String.eqb_neq in Ht. by rewrite Ht.
  - split; [done|]. exists p. split; [done|]. split; [done|]. split; [done|].
    intros t H200. discriminate.
Qed.

Lemma updatePost_frame_witness :
  let s := mkStore ∅ {[ "P" := mkPost "t" "b" "W" [] ]} in
  let '(r, s') := run (updatePost (mkReqUser "W" "author") "P" (JStr "new") JNull) s in
  (∀ j, j ≠ "P" → posts s' !! j = posts s !! j)
  ∧ ∃ p', posts s' !! "P" = Some p'
      ∧ author p' = "W" ∧ comments p' = []
      ∧ (∀ t, status r = 200 → JStr "new" = JStr t → t ≠ "" → title p' = t).
Proof.
  exact (updatePost_frame (mkReqUser "W" "author") "P" (JStr "new") JNull
           (mkStore ∅ {[ "P" := mkPost "t" "b" "W" [] ]}) (mkPost "t" "b" "W" []) eq_refl).
Defined.

(** X22.  A post delete leaves every other post as it is.  One that is
    answered 200 has removed its post, and repeating it is then answered 404
    "Post not found".  The answer 404 "Post could not be deleted" is out of
    reach when no other request comes in between. *)
Theorem deletePost_effect (req_user : ReqUser) (id : string) (s : Store) :
  let '(r, s') := run (deletePost req_user id) s in
  json r ≠ Msg "Post could not be deleted"
  ∧ (∀ j, j ≠ id → posts s' !! j = posts s !! j)
  ∧ (status r = 200 →
       posts s' !! id = None
       ∧ run (deletePost req_user id) s' = (mkResponse 404 (Msg "Post not found"), s')).
Proof.
  rewrite deletePost_run. destruct (posts s !! id) as [p|] eqn:Hp.
  - case_decide.
    + cbn [posts json status]. split; [discriminate|].
      split; [intros j Hj; by rewrite lookup_delete_ne|]. intros _.
      split; [apply lookup_delete_eq|].
      rewrite deletePost_run. cbn [posts]. by rewrite lookup_delete_eq.
    + split; [discriminate|]. split; [done|]. discriminate.
  - split; [discriminate|]. split; [done|]. discriminate.
Qed.

Lemma comments_id_Some (cs : list Comment) (commentId : string) (c : Comment) :
  comments_id cs commentId = Some c → c ∈ cs ∧ comment_id c = commentId.
Proof.
  unfold comments_id. intros H. apply find_some in H as [Hin Heq].
  split; [by apply list_elem_of_In|by apply String.eqb_eq].
Qed.

Lemma comments_id_None (cs : list Comment) (commentId : string) :
  comments_id cs commentId = None ↔ commentId ∉ comment_id <$> cs.
Proof.
  unfold comments_id. induction cs as [|c cs IH]; cbn.
  - split; [intros _; apply not_elem_of_nil|done].
  - destruct (String.eqb_spec (comment_id c) commentId) as [<-|Hne].
    + split; [done|]. intros H. destruct H. constructor.
    + rewrite IH, not_elem_of_cons. split; [by split|by intros [_ ?]].
Qed.

Lemma comments_id_snoc (cs : list Comment) (c : Comment) :
  comment_id c ∉ comment_id <$> cs → comments_id (cs ++ [c]) (comment_id c) = Some c.
Proof.
  unfold comments_id. induction cs as [|c' cs IH]; cbn; intros Hnot.
  - by rewrite String.eqb_refl.
  - apply not_elem_of_cons in Hnot as [Hne Hnot].
    apply not_eq_sym, String.eqb_neq in Hne. rewrite Hne. by apply IH.
Qed.

Lemma deleteOne_elem_of (cs : list Comment) (c c' : Comment) :
  c' ∈ deleteOne cs c ↔ c' ∈ cs ∧ comment_id c' ≠ comment_id c.
Proof.
  unfold deleteOne. rewrite !list_elem_of_In, filter_In, negb_true_iff, String.eqb_neq.
  done.
Qed.

Lemma deleteOne_NoDup (cs : list Comment) (c : Comment) :
  NoDup (comment_id <$> cs) → NoDup (comment_id <$> deleteOne cs c).
Proof.
  induction cs as [|c' cs IH]; [done|]. intros Hnd.
  apply NoDup_cons in Hnd as [Hnot Hnd]. unfold deleteOne in *. cbn [List.filter].
  destruct (negb (String.eqb (comment_id c') (comment_id c))); [|by apply IH].
  apply NoDup_cons. split; [|by apply IH].
  intros Hin. apply Hnot. apply list_elem_of_fmap in Hin as (d & Hd & Hin).
  apply list_elem_of_fmap. exists d. split; [done|].
  by apply (deleteOne_elem_of cs c d).
Qed.

Lemma deleteOne_snoc (cs : list Comment) (c : Comment) :
  comment_id c ∉ comment_id <$> cs → deleteOne (cs ++ [c]) c = cs.
Proof.
  unfold deleteOne. induction cs as [|c' cs IH]; cbn; intros Hnot.
  - by rewrite String.eqb_refl.
  - apply not_elem_of_cons in Hnot as [Hne Hnot].
    apply not_eq_sym, String.eqb_neq in Hne. rewrite Hne. cbn. by rewrite IH.
Qed.

Lemma deleteOne_length (cs : list Comment) (c : Comment) :
  NoDup (comment_id <$> cs) → c ∈ cs → length (deleteOne cs c) + 1 = length cs.
Proof.
  unfold deleteOne. induction cs as [|c' cs IH]; cbn; intros Hnd Hin.
  - by apply elem_of_nil in Hin.
  - apply NoDup_cons in Hnd as [Hnot Hnd].
    destruct (String.eqb_spec (comment_id c') (comment_id c)) as [Heq|Hne]; cbn.
    + rewrite Heq in Hnot.
      replace (List.filter _ cs) with cs; [lia|].
      symmetry. clear -Hnot. induction cs as [|d cs IH]; [done|]. cbn.
      apply not_elem_of_cons in Hnot as [Hne Hnot].
      apply not_eq_sym, String.eqb_neq in Hne. rewrite Hne. cbn. f_equal. by apply IH.
    + apply elem_of_cons in Hin as [->|Hin]; [done|]. specialize (IH Hnd Hin). lia.
Qed.

(** X24.  Adding a comment and then deleting it is a round trip: the actor
    who added a comment may delete it, whatever the actor's role and whoever
    owns the post, and the store is then as before the comment was added. *)
Theorem addComment_then_deleteComment
  (req_user : ReqUser) (id : string) (req_comment : string) (s : Store) (p p1 : Post)
  (c : Comment) :
  posts s !! id = Some p →
  let s1 := (run (addComment req_user id req_comment) s).2 in
  posts s1 !! id = Some p1 →
  last (comments p1) = Some c →
  run (deleteComment req_user id (comment_id c)) s1
  = (mkResponse 200 (Msg "Comment deleted successfully"), s).
Proof.
  intros Hp s1 Hp1 Hlast.
  assert (Hs1 : s1 = mkStore (users s)
                       (<[id := mkPost (title p) (content p) (author p)
                                  (push (comments p) (user_id req_user) req_comment)]>
                          (posts s))).
  { unfold s1. by rewrite addComment_run, Hp. }
  rewrite Hs1 in Hp1. cbn [posts] in Hp1. rewrite lookup_insert_eq in Hp1.
  injection Hp1 as <-. cbn [comments] in Hlast. unfold push in Hlast.
  rewrite last_snoc in Hlast. injection Hlast as <-.
  set (cid := fresh (comment_id <$> comments p)).
  assert (Hfresh : cid ∉ comment_id <$> comments p) by apply infinite_is_fresh.
  rewrite deleteComment_run, Hs1. cbn [posts users comment_id]. rewrite lookup_insert_eq.
  cbn [comments title content author]. unfold push. fold cid.
  pose proof (comments_id_snoc (comments p)
                (mkComment cid (user_id req_user) req_comment) Hfresh) as Hfind.
  cbn [comment_id] in Hfind. rewrite Hfind.
  rewrite decide_True by (right; right; done).
  rewrite (deleteOne_snoc (comments p) (mkComment cid (user_id req_user) req_comment))
    by done.
  rewrite insert_insert_eq. f_equal. destruct s as [us ps]. cbn [users posts] in *.
  f_equal. apply insert_id. by destruct p.
Qed.

Lemma addComment_then_deleteComment_witness :
  let p := mkPost "t" "b" "W" [mkComment "c1" "U" "hello"] in
  let s := mkStore ∅ {[ "P" := p ]} in
  let s1 := (run (addComment (mkReqUser "V" "reader") "P" "hi") s).2 in
  run (deleteComment (mkReqUser "V" "reader") "P" (fresh ["c1"])) s1
  = (mkResponse 200 (Msg "Comment deleted successfully"), s).
Proof.
  intros p s s1.
  exact (addComment_then_deleteComment (mkReqUser "V" "reader") "P" "hi" s p
           (mkPost "t" "b" "W" [mkComment "c1" "U" "hello"; mkComment (fresh ["c1"]) "V" "hi"])
           (mkComment (fresh ["c1"]) "V" "hi") eq_refl eq_refl eq_refl).
Defined.

(** X25.  A comment delete that is answered 200 has taken out of the post
    the comment with the given identifier and no other: the comments left
    are those of before with another identifier, the identifier is no longer
    found, and repeating the request is answered 404 "Comment not found".
    If the identifiers were distinct they still are, and the post has one
    comment less. *)
Theorem deleteComment_removes
  (req_user : ReqUser) (postId commentId : string) (s : Store) :
  let '(r, s') := run (deleteComment req_user postId commentId) s in
  status r = 200 →
  ∃ p p',
    posts s !! postId = Some p
    ∧ posts s' !! postId = Some p'
    ∧ comments_id (comments p') commentId = None
    ∧ (∀ c, c ∈ comments p' ↔ c ∈ comments p ∧ comment_id c ≠ commentId)
    ∧ (commentIdsUnique p →
         commentIdsUnique p' ∧ length (comments p') + 1 = length (comments p))
    ∧ run (deleteComment req_user postId commentId) s'
      = (mkResponse 404 (Msg "Comment not found"), s').
Proof.
  rewrite deleteComment_run. destruct (posts s !! postId) as [p|] eqn:Hp; [|discriminate].
  destruct (comments_id (comments p) commentId) as [c|] eqn:Hc; [|discriminate].
  case_decide; [|discriminate]. intros _.
  apply comments_id_Some in Hc as [Hin Hid].
  assert (Hgone : comments_id (deleteOne (comments p) c) commentId = None).
  { apply comments_id_None. intros Hin'.
    apply list_elem_of_fmap in Hin' as (d & Hd & Hin').
    apply deleteOne_elem_of in Hin' as [_ Hne]. congruence. }
  exists p. eexists. cbn [posts]. split; [done|]. split; [apply lookup_insert_eq|].
  cbn [comments]. split; [done|]. split; [|split].
  - intros d. rewrite deleteOne_elem_of, Hid. done.
  - unfold commentIdsUnique. cbn [comments]. intros Hnd.
    split; [by apply deleteOne_NoDup|by apply deleteOne_length].
  - rewrite deleteComment_run. cbn [posts]. rewrite lookup_insert_eq. cbn [comments].
    by rewrite Hgone.
Qed.

Lemma deleteComment_removes_witness :
  let c := mkComment "c1" "U" "hello" in
  let s := mkStore ∅ {[ "P" := mkPost "t" "b" "W" [c] ]} in
  ∃ p',
    posts (run (deleteComment (mkReqUser "U" "reader") "P" "c1") s).2 !! "P" = Some p'
    ∧ comments_id (comments p') "c1" = None.
Proof.
  intros c s.
  destruct (deleteComment_removes (mkReqUser "U" "reader") "P" "c1" s eq_refl)
    as (p & p' & _ & Hp' & Hgone & _).
  exists p'. split; [exact Hp'|exact Hgone].
Defined.

(** X26.  A post or comment handler that does not answer 200 or 201 has
    written nothing: every refusal comes before the write. *)
Theorem post_handlers_refusals
  (req_user : ReqUser) (id commentId : string) (req_title req_content : jsval)
  (req_comment : string) (s : Store) :
  let quiet (h : handler response) :=
    status (run h s).1 ≠ 200 → status (run h s).1 ≠ 201 → (run h s).2 = s in
  quiet (updatePost req_user id req_title req_content)
  ∧ quiet (deletePost req_user id)
  ∧ quiet (addComment req_user id req_comment)
  ∧ quiet (deleteComment req_user id commentId).
Proof.
  intros quiet. unfold quiet.
  rewrite updatePost_run, deletePost_run, addComment_run, deleteComment_run.
  destruct (posts s !! id) as [p|].
  - destruct (comments_id (comments p) commentId); repeat case_decide;
      cbn [fst snd status]; repeat split; try done.
  - cbn [fst snd status]; repeat split; try done.
Qed.

(** ** The token middleware *)

Lemma split_nonempty (sep : ascii) (s : string) : split sep s ≠ [].
Proof.
  induction s as [|c s IH]; cbn -[Ascii.eqb]; [done|].
  destruct (Ascii.eqb c sep); [done|]. by destruct (split sep s).
Qed.

Lemma split_no_sep (sep : ascii) (a : string) :
  sep ∉ String.list_ascii_of_string a → split sep a = [a].
Proof.
  induction a as [|c a IH]; cbn -[Ascii.eqb]; [done|]. intros Hnot.
  apply not_elem_of_cons in Hnot as [Hne Hnot].
  apply not_eq_sym, Ascii.eqb_neq in Hne. rewrite Hne, IH; done.
Qed.

Lemma split_app (sep : ascii) (a b : string) :
  sep ∉ String.list_ascii_of_string a → split sep (a +:+ String sep b) = a :: split sep b.
Proof.
  induction a as [|c a IH]; intros Hnot.
  - change ("" +:+ String sep b) with (String sep b). cbn -[Ascii.eqb].
    by rewrite Ascii.eqb_refl.
  - change (String c a +:+ String sep b) with (String c (a +:+ String sep b)).
    cbn -[Ascii.eqb] in *.
    apply not_elem_of_cons in Hnot as [Hne Hnot].
    apply not_eq_sym, Ascii.eqb_neq in Hne. rewrite Hne, IH; done.
Qed.

(** X27.  The middleware takes the second space-separated word of the
    authorization header as the token.  The first word, the scheme, is not
    looked at, and whatever follows a second space is dropped. *)
Theorem headerToken_second_word (scheme token rest : string) :
  " "%char ∉ String.list_ascii_of_string scheme →
  " "%char ∉ String.list_ascii_of_string token →
  headerToken (Some (scheme +:+ " " +:+ token)) = Some token
  ∧ headerToken (Some (scheme +:+ " " +:+ token +:+ " " +:+ rest)) = Some token.
Proof.
  intros Hs Ht. unfold headerToken. cbn [mbind option_bind].
  change (" " +:+ token) with (String " "%char token).
  change (" " +:+ token +:+ " " +:+ rest)
    with (String " "%char (token +:+ String " "%char rest)).
  rewrite (split_app " " scheme token Hs).
  rewrite (split_app " " scheme (token +:+ String " "%char rest) Hs).
  cbn [lookup list_lookup].
  rewrite (split_no_sep " " token Ht), (split_app " " token rest Ht). done.
Qed.

Lemma headerToken_second_word_witness :
  headerToken (Some "Bearer abc.def") = Some "abc.def"
  ∧ headerToken (Some "Basic abc.def trailing words") = Some "abc.def".
Proof.
  split.
  - refine (proj1 (headerToken_second_word "Bearer" "abc.def" "" _ _));
      vm_compute; intros H; repeat (apply elem_of_cons in H as [H|H]; [discriminate|]);
      by apply elem_of_nil in H.
  - refine (proj2 (headerToken_second_word "Basic" "abc.def" "trailing words" _ _));
      vm_compute; intros H; repeat (apply elem_of_cons in H as [H|H]; [discriminate|]);
      by apply elem_of_nil in H.
Defined.

(** X28.  The middleware hands a request on only with a verified token: if
    it sets [req.user], the header held a non-empty second word, the
    verification accepted it, and [req.user] is the id and role it
    decoded. *)
Theorem verifyToken_next_verified
  (jwt_verify : string → option ReqUser) (authorization : option string) (u : ReqUser) :
  verifyToken jwt_verify authorization = Next u →
  ∃ header token decoded,
    authorization = Some header
    ∧ split " "%char header !! 1 = Some token
    ∧ token ≠ ""
    ∧ jwt_verify token = Some decoded
    ∧ u = mkReqUser (user_id decoded) (user_role decoded).
Proof.
  unfold verifyToken, headerToken. destruct authorization as [header|]; cbn; [|discriminate].
  destruct (split " "%char header !! 1) as [token|] eqn:Htok; [|discriminate].
  destruct token as [|c token]; [discriminate|].
  destruct (jwt_verify (String c token)) as [decoded|] eqn:Hv; [|discriminate].
  intros [= <-]. exists header, (String c token), decoded. done.
Qed.

Lemma verifyToken_next_verified_witness :
  let jwt_verify := λ token : string,
    if String.eqb token "good" then Some (mkReqUser "A" "admin") else None in
  ∃ header token decoded,
    Some "Bearer good" = Some header
    ∧ split " "%char header !! 1 = Some token
    ∧ token ≠ ""
    ∧ jwt_verify token = Some decoded
    ∧ mkReqUser "A" "admin" = mkReqUser (user_id decoded) (user_role decoded).
Proof.
  intros jwt_verify.
  exact (verifyToken_next_verified jwt_verify (Some "Bearer good") (mkReqUser "A" "admin")
           eq_refl).
Defined.

(** X29.  A request with no authorization header, or with a header that has
    no space in it, or with nothing between the first space and the next,
    is answered 401 "Unauthorized" whatever the verification would say of
    any token. *)
Theorem verifyToken_unauthorized
  (jwt_verify : string → option ReqUser) (word rest : string) :
  " "%char ∉ String.list_ascii_of_string word →
  verifyToken jwt_verify None = Respond (mkResponse 401 (Msg "Unauthorized"))
  ∧ verifyToken jwt_verify (Some word) = Respond (mkResponse 401 (Msg "Unauthorized"))
  ∧ verifyToken jwt_verify (Some (word +:+ " ")) = Respond (mkResponse 401 (Msg "Unauthorized"))
  ∧ verifyToken jwt_verify (Some (word +:+ "  " +:+ rest))
    = Respond (mkResponse 401 (Msg "Unauthorized")).
Proof.
  intros Hw. unfold verifyToken, headerToken. cbn [mbind option_bind].
  split; [done|]. split; [by rewrite split_no_sep|].
  change (word +:+ " ") with (word +:+ String " "%char "").
  change (word +:+ "  " +:+ rest) with (word +:+ String " "%char (String " "%char rest)).
  rewrite (split_app " " word "" Hw), (split_app " " word (String " "%char rest) Hw).
  cbn -[Ascii.eqb]. by rewrite Ascii.eqb_refl.
Qed.

Lemma verifyToken_unauthorized_witness :
  verifyToken (λ _, Some (mkReqUser "A" "admin")) (Some "Bearer")
  = Respond (mkResponse 401 (Msg "Unauthorized")).
Proof.
  refine (proj1 (proj2 (verifyToken_unauthorized (λ _, Some (mkReqUser "A" "admin"))
                          "Bearer" "" _))).
  vm_compute. intros H. repeat (apply elem_of_cons in H as [H|H]; [discriminate|]).
  by apply elem_of_nil in H.
Defined.

(** ** Role updates that overlap *)

Lemma updateUserRole_demotes
  (req_user : ReqUser) (id r : string) (s : Store) (t c : User) :
  users s !! id = Some t →
  users s !! user_id req_user = Some c →
  role c = "admin" →
  user_id req_user ≠ id →
  role t = "admin" →
  r = "author" ∨ r = "reader" →
  run (updateUserRole req_user id (JStr r)) s
  = (roleUpdated (mkUserDoc id (mkUser (name t) (email t) (password t) r)),
     mkStore (<[id := mkUser (name t) (email t) (password t) r]> (users s)) (posts s)).
Proof.
  intros Ht Hc Hcr Hne Htr Hr.
  destruct (updateUserRole_run req_user id (JStr r) s)
    as [[_ Hin]|(t' & c' & r' & Ht' & _ & _ & _ & [= <-] & _ & _ & ->)].
  - exfalso. revert Hin. unfold run, updateUserRole.
    assert (Hvalid : includes validRoles (JStr r) = true) by (by destruct Hr as [-> | ->]).
    assert (Hnew : js_is (JStr r) "admin" = false) by (by destruct Hr as [-> | ->]).
    rewrite Hvalid. apply String.eqb_neq in Hne.
    pose proof (countUsers_two "admin" (users s) _ _ c t
                  (proj1 (String.eqb_neq _ _) Hne) Hc Hcr Ht Htr) as Htwo.
    apply Nat.leb_gt in Htwo. unfold countUsers in Htwo.
    cbn -[Nat.leb js_is]. rewrite Ht. cbn -[Nat.leb js_is]. rewrite Hc.
    cbn -[Nat.leb js_is]. rewrite Hcr, Hne, Htr, Hnew. cbn -[Nat.leb js_is].
    rewrite Htwo. cbn -[Nat.leb js_is]. rewrite Ht. cbn.
    intros Hin. repeat (apply elem_of_cons in Hin as [Hin|Hin]; [discriminate|]).
    by apply elem_of_nil in Hin.
  - rewrite Ht in Ht'. by injection Ht' as <-.
Qed.

(** X30.  The "last admin" guard counts and then saves, and another request
    can come in between.  Take two admins who demote each other: the first
    request has counted two admins when the second one runs in full, and
    then saves.  Both are answered 200 and the store is left without any
    admin. *)
Theorem updateUserRole_overlap_loses_admins
  (a b r r' : string) (s : Store) (ua ub : User) :
  a ≠ b →
  users s !! a = Some ua →
  users s !! b = Some ub →
  role ua = "admin" →
  role ub = "admin" →
  countAdmins s = 2 →
  r = "author" ∨ r = "reader" →
  r' = "author" ∨ r' = "reader" →
  let second := updateUserRole (mkReqUser b "admin") a (JStr r') in
  let between := [λ s, s; λ s, s; λ s, s; λ s, (run second s).2] in
  let '(r1, s') := runWith between (updateUserRole (mkReqUser a "admin") b (JStr r)) s in
  status r1 = 200
  ∧ status (run second s).1 = 200
  ∧ countAdmins s' = 0.
Proof.
  intros Hab Ha Hb Hra Hrb Hcount Hr Hr' second between.
  assert (Hsecond : run second s
            = (roleUpdated (mkUserDoc a (mkUser (name ua) (email ua) (password ua) r')),
               mkStore (<[a := mkUser (name ua) (email ua) (password ua) r']> (users s))
                       (posts s))).
  { unfold second. by apply (updateUserRole_demotes _ _ _ _ ua ub). }
  assert (Hvalid : includes validRoles (JStr r) = true) by (by destruct Hr as [-> | ->]).
  assert (Hnew : js_is (JStr r) "admin" = false) by (by destruct Hr as [-> | ->]).
  assert (Hne : String.eqb a b = false) by (by apply String.eqb_neq).
  assert (Hleb : Nat.leb (size (filter (λ kv : string * User, role kv.2 = "admin")
                                       (users s))) 1 = false).
  { apply Nat.leb_gt. unfold countAdmins, countUsers in Hcount. lia. }
  unfold between, updateUserRole at 1. rewrite Hvalid.
  cbn -[Nat.leb js_is second]. rewrite Hb. cbn -[Nat.leb js_is second]. rewrite Ha.
  cbn -[Nat.leb js_is second]. rewrite Hra, Hne, Hrb, Hnew. cbn -[Nat.leb js_is second].
  rewrite Hleb. cbn -[Nat.leb js_is second].
  fold (run second s). rewrite Hsecond. cbn [snd users posts].
  rewrite lookup_insert_ne, Hb by done. cbn [runWith status roleUpdated].
  split; [done|]. split; [done|].
  change (countUsers (Some "admin")
            (<[b := mkUser (name ub) (email ub) (password ub) r]>
               (<[a := mkUser (name ua) (email ua) (password ua) r']> (users s))) = 0).
  unfold countAdmins in Hcount.
  rewrite countUsers_insert, countUsers_delete, lookup_insert_ne, Hb by done.
  rewrite countUsers_insert, countUsers_delete, Ha. cbn [role].
  rewrite (decide_True _ _ Hra), (decide_True _ _ Hrb), Hcount.
  destruct Hr as [-> | ->], Hr' as [-> | ->]; reflexivity.
Qed.

Lemma updateUserRole_overlap_loses_admins_witness :
  let s := mkStore {[ "A" := mkUser "a" "a@x" "pw" "admin";
                      "B" := mkUser "b" "b@x" "pw" "admin" ]} ∅ in
  let second := updateUserRole (mkReqUser "B" "admin") "A" (JStr "reader") in
  let between := [λ s, s; λ s, s; λ s, s; λ s, (run second s).2] in
  let '(r1, s') :=
    runWith between (updateUserRole (mkReqUser "A" "admin") "B" (JStr "reader")) s in
  status r1 = 200
  ∧ status (run second s).1 = 200
  ∧ countAdmins s' = 0.
Proof.
  apply (updateUserRole_overlap_loses_admins "A" "B" "reader" "reader"
           (mkStore {[ "A" := mkUser "a" "a@x" "pw" "admin";
                       "B" := mkUser "b" "b@x" "pw" "admin" ]} ∅)
           (mkUser "a" "a@x" "pw" "admin") (mkUser "b" "b@x" "pw" "admin"));
    first [reflexivity | discriminate | by right].
Defined.
